(** * okc-zev-threejs: a shallow embedding of [main.js]

    [main.js] is a single script that wires a scene graph, a camera, an
    orbit controller, four lights, a control panel and one asynchronous
    asset load together.  The embedding below follows the script top to
    bottom:

    - JavaScript numbers are idealised as exact rationals ([Q]); equalities
      between computed numbers are stated with [==].
    - The scene-graph, loader and panel libraries are collaborators of the
      script.  The few operations the script calls ([Box3.setFromObject],
      [getCenter], [getSize], [Vector3.sub], [Object3D.traverse], [Set],
      [gui.addFolder], ...) are modelled by what they compute; trigonometry
      and the orbit controller's arithmetic stay parameters of the
      development.
    - Objects that the script shares by reference (lights, materials, the
      loaded root) live in an explicit store, so a write through one
      reference is seen through every other. *)

From Stdlib Require Import QArith Qminmax Lqa ZArith List Bool String Lia.
From Stdlib Require Import Setoid Morphisms.
Import ListNotations.
Local Open Scope Q_scope.

(** ** Numbers and vectors *)

Definition Qltb (a b : Q) : bool := negb (Qle_bool b a).

Record Vector3 : Type := vec3 { vx : Q; vy : Q; vz : Q }.

Definition v0 : Vector3 := vec3 0 0 0.

Definition vadd (a b : Vector3) : Vector3 :=
  vec3 (vx a + vx b) (vy a + vy b) (vz a + vz b).

(** [Vector3.sub]: component-wise subtraction. *)
Definition vsub (a b : Vector3) : Vector3 :=
  vec3 (vx a - vx b) (vy a - vy b) (vz a - vz b).

Definition vscale (a : Vector3) (k : Q) : Vector3 :=
  vec3 (vx a * k) (vy a * k) (vz a * k).

(** [Vector3.multiply]: component-wise product. *)
Definition vmul (a b : Vector3) : Vector3 :=
  vec3 (vx a * vx b) (vy a * vy b) (vz a * vz b).

Definition vmin (a b : Vector3) : Vector3 :=
  vec3 (Qmin (vx a) (vx b)) (Qmin (vy a) (vy b)) (Qmin (vz a) (vz b)).

Definition vmax (a b : Vector3) : Vector3 :=
  vec3 (Qmax (vx a) (vx b)) (Qmax (vy a) (vy b)) (Qmax (vz a) (vz b)).

(** Component-wise rational equality. *)
Definition veq (a b : Vector3) : Prop :=
  vx a == vx b /\ vy a == vy b /\ vz a == vz b.

Definition vle (a b : Vector3) : Prop :=
  vx a <= vx b /\ vy a <= vy b /\ vz a <= vz b.

(** ** Axis-aligned boxes ([THREE.Box3])

    A fresh [Box3] has [min = +Infinity] and [max = -Infinity]; that one
    non-finite value is [EmptyBox]. *)

Inductive Box3 : Type :=
| EmptyBox
| Box (min max : Vector3).

Definition isEmpty (b : Box3) : bool :=
  match b with
  | EmptyBox => true
  | Box mn mx =>
      Qltb (vx mx) (vx mn) || Qltb (vy mx) (vy mn) || Qltb (vz mx) (vz mn)
  end.

Definition expandByPoint (b : Box3) (p : Vector3) : Box3 :=
  match b with
  | EmptyBox => Box p p
  | Box mn mx => Box (vmin mn p) (vmax mx p)
  end.

Definition setFromPoints (pts : list Vector3) : Box3 :=
  fold_left expandByPoint pts EmptyBox.

Definition union (a b : Box3) : Box3 :=
  match a, b with
  | EmptyBox, _ => b
  | _, EmptyBox => a
  | Box amn amx, Box bmn bmx => Box (vmin amn bmn) (vmax amx bmx)
  end.

Definition corners (mn mx : Vector3) : list Vector3 :=
  [ vec3 (vx mn) (vy mn) (vz mn); vec3 (vx mn) (vy mn) (vz mx);
    vec3 (vx mn) (vy mx) (vz mn); vec3 (vx mn) (vy mx) (vz mx);
    vec3 (vx mx) (vy mn) (vz mn); vec3 (vx mx) (vy mn) (vz mx);
    vec3 (vx mx) (vy mx) (vz mn); vec3 (vx mx) (vy mx) (vz mx) ].

(** A world matrix is represented by its action on points. *)
Definition Matrix4 : Type := Vector3 -> Vector3.

(** [Box3.applyMatrix4]: an empty box is returned as it is, otherwise the
    box of the eight transformed corners. *)
Definition applyMatrix4 (b : Box3) (m : Matrix4) : Box3 :=
  if isEmpty b then b
  else match b with
       | EmptyBox => b
       | Box mn mx => setFromPoints (map m (corners mn mx))
       end.

Definition getCenter (b : Box3) : Vector3 :=
  if isEmpty b then v0
  else match b with
       | EmptyBox => v0
       | Box mn mx => vscale (vadd mn mx) (1 # 2)
       end.

Definition getSize (b : Box3) : Vector3 :=
  if isEmpty b then v0
  else match b with
       | EmptyBox => v0
       | Box mn mx => vsub mx mn
       end.

(** Equality of boxes up to [==] on the coordinates. *)
Definition beq (a b : Box3) : Prop :=
  match a, b with
  | EmptyBox, EmptyBox => True
  | Box amn amx, Box bmn bmx => veq amn bmn /\ veq amx bmx
  | _, _ => False
  end.

(** The box moved by [d]. *)
Definition translateBox (d : Vector3) (b : Box3) : Box3 :=
  match b with
  | EmptyBox => EmptyBox
  | Box mn mx => Box (vadd mn d) (vadd mx d)
  end.

(** [p'] is [p] moved by [d]; [b'] is [b] moved by [d]. *)
Definition moved (d p p' : Vector3) : Prop := veq p' (vadd p d).

Definition bmoved (d : Vector3) (b b' : Box3) : Prop :=
  beq b' (translateBox d b).

Definition vopp (a : Vector3) : Vector3 := vec3 (- vx a) (- vy a) (- vz a).

(** A box whose corners are in order. *)
Definition ordered (b : Box3) : Prop :=
  match b with
  | EmptyBox => True
  | Box mn mx => vle mn mx
  end.

(** ** Materials

    Materials are heap objects; a mesh holds a reference to one and
    several meshes may hold the same reference.  A property the material
    type does not have is [None] ([undefined]). *)

Definition loc : Type := nat.

Record Material : Type := mkMaterial {
  color : option Z;          (* [Color] as its hex value *)
  metalness : option Q;
  roughness : option Q;
  wireframe : option bool
}.

Definition MaterialStore : Type := loc -> Material.

Definition store_set (h : MaterialStore) (l : loc) (m : Material)
  : MaterialStore :=
  fun l' => if Nat.eqb l' l then m else h l'.

(** ** Scene-graph nodes ([THREE.Object3D])

    A geometry is the list of its vertex positions; the loader gives every
    mesh one material. *)

Inductive Payload : Type :=
| Group                                             (* no geometry *)
| Mesh (geometry : list Vector3) (material : loc)   (* [isMesh] *)
| Line (geometry : list Vector3) (material : loc).  (* drawn, not a mesh *)

Record Object3DData : Type := mkData {
  position : Vector3;
  rotation : Vector3;        (* Euler angles x, y, z *)
  scale : Vector3;
  castShadow : bool;
  receiveShadow : bool;
  payload : Payload
}.

#[local] Unset Elimination Schemes.
Inductive Object3D : Type :=
| Node (data : Object3DData) (children : list Object3D).
#[local] Set Elimination Schemes.

(** Induction over a node with the property known for every child. *)
Section Object3D_induction.

Variable P : Object3D -> Prop.
Hypothesis step_case : forall d cs, Forall P cs -> P (Node d cs).

Fixpoint Object3D_ind (o : Object3D) : P o :=
  match o with
  | Node d cs =>
      step_case d cs
        ((fix all (l : list Object3D) : Forall P l :=
            match l with
            | [] => Forall_nil P
            | c :: l' => Forall_cons c (Object3D_ind c) (all l')
            end) cs)
  end.

End Object3D_induction.

Definition data_of (o : Object3D) : Object3DData :=
  match o with Node d _ => d end.

Definition isMesh (d : Object3DData) : bool :=
  match payload d with Mesh _ _ => true | _ => false end.

Definition geometry_of (d : Object3DData) : option (list Vector3) :=
  match payload d with
  | Group => None
  | Mesh g _ | Line g _ => Some g
  end.

(** [Object3D.traverse]: the callback on the node, then on every child in
    order.  The callback may rewrite the node's own fields and thread a
    state. *)
Fixpoint traverse {S : Type}
    (cb : Object3DData -> S -> Object3DData * S)
    (o : Object3D) (s : S) : Object3D * S :=
  match o with
  | Node d cs =>
      let '(d', s1) := cb d s in
      let '(cs', s2) :=
        (fix go (l : list Object3D) (s : S) : list Object3D * S :=
           match l with
           | [] => ([], s)
           | c :: l' =>
               let '(c', s') := traverse cb c s in
               let '(l'', s'') := go l' s' in
               (c' :: l'', s'')
           end) cs s1 in
      (Node d' cs', s2)
  end.

(** The nodes in the order [traverse] visits them. *)
Fixpoint nodes (o : Object3D) : list Object3DData :=
  match o with
  | Node d cs => d :: flat_map nodes cs
  end.

(** A JavaScript [Set] keeps insertion order and holds an element once. *)
Definition JSSet : Type := list loc.

Definition set_add (s : JSSet) (l : loc) : JSSet :=
  if existsb (Nat.eqb l) s then s else s ++ [l].

(** ** The objects of the script *)

Inductive ShadowMapType : Type :=
| BasicShadowMap | PCFShadowMap | PCFSoftShadowMap | VSMShadowMap.

Record WebGLRenderer : Type := mkRenderer {
  renderer_width : Z;
  renderer_height : Z;
  shadowMap_enabled : bool;
  shadowMap_type : ShadowMapType;
  domElement_attached : bool       (* appended to [document.body] *)
}.

Record PerspectiveCamera : Type := mkCamera {
  fov : Q;
  aspect : Q;
  near : Q;
  far : Q;
  projection_aspect : Q;           (* the aspect the projection matrix has *)
  camera_position : Vector3
}.

Record OrbitControls : Type := mkControls {
  enableDamping : bool;
  minPolarAngle : Q;
  maxPolarAngle : Q;
  minDistance : Q;
  maxDistance : Q;
  enableZoom : bool;
  zoomSpeed : Q
}.

Inductive LightKind : Type := AmbientLight | DirectionalLight.

Record Light : Type := mkLight {
  light_kind : LightKind;
  light_color : Z;
  intensity : Q;
  light_position : Vector3;
  light_castShadow : bool
}.

(** The four light constants of the script. *)
Inductive LightId : Type := ambientLight | mainLight | fillLight | topLight.

Definition LightId_eqb (a b : LightId) : bool :=
  match a, b with
  | ambientLight, ambientLight | mainLight, mainLight
  | fillLight, fillLight | topLight, topLight => true
  | _, _ => false
  end.

Record PlaneGeometry : Type := mkPlane { plane_width : Q; plane_height : Q }.

Record GroundMesh : Type := mkGround {
  ground_geometry : PlaneGeometry;
  ground_material : Material;
  ground_rotation : Vector3;
  ground_position : Vector3;
  ground_castShadow : bool;
  ground_receiveShadow : bool
}.

(** What [scene.children] holds.  Lights and the loaded root are shared
    with the panel callbacks, so the scene refers to them; the ground is
    referenced from nowhere else and is held by value. *)
Inductive SceneChild : Type :=
| ChildLight (l : LightId)
| ChildGround (g : GroundMesh)
| ChildObject.

(** *** The control panel

    An on-change callback is a closure; it is represented by the write it
    performs and the object it captured. *)

Inductive NumberCallback : Type :=
| setIntensity (l : LightId)
| setMetalness (material : loc)
| setRoughness (material : loc)
| setScale
| setRotationX
| setRotationY
| setRotationZ.

Inductive ColorCallback : Type := setHex (material : loc).

Inductive BooleanCallback : Type := setWireframe (material : loc).

Inductive Controller : Type :=
| NumberController (property name : string) (min max value : Q)
    (onChange : NumberCallback)
| ColorController (property : string) (value : Z) (onChange : ColorCallback)
| BooleanController (property : string) (value : bool)
    (onChange : BooleanCallback).

Record Folder : Type := mkFolder {
  title : string;
  controllers : list Controller
}.

Inductive LogEntry : Type :=
| console_log (percent : Q)        (* [percent + '% loaded'] *)
| console_error (error : string).  (* ['An error occurred ...', error] *)

(** The result the loader hands to the success callback: the root node and
    the material objects its meshes refer to. *)
Record GLTF : Type := mkGLTF {
  gltf_scene : Object3D;
  gltf_materials : MaterialStore
}.

(** The closure variables of the success callback that outlive it. *)
Record Loaded : Type := mkLoaded {
  object : Object3D;
  store : MaterialStore
}.

Record State : Type := mkState {
  scene_background : Z;
  scene_children : list SceneChild;
  camera : PerspectiveCamera;
  renderer : WebGLRenderer;
  controls : OrbitControls;
  lights : LightId -> Light;
  gui : list Folder;
  loaded : option Loaded;
  console : list LogEntry;
  load_requests : list string;     (* [loader.load] calls issued *)
  frame_requested : bool;          (* a [requestAnimationFrame] is pending *)
  frames_rendered : nat;
  resize_listener : bool
}.

Inductive Event : Type :=
| LoadSuccess (gltf : GLTF)
| LoadProgress (xhr_loaded xhr_total : Q)
| LoadError (error : string)
| AnimationFrame
| WindowResize (innerWidth innerHeight : Z)
| NumberInput (folder controller : nat) (value : Q)
| ColorInput (folder controller : nat) (value : Z)
| BooleanInput (folder controller : nat) (value : bool).

(** *** Field updates *)

Definition set_position (d : Object3DData) (p : Vector3) : Object3DData :=
  mkData p (rotation d) (scale d) (castShadow d) (receiveShadow d) (payload d).

Definition set_rotation (d : Object3DData) (r : Vector3) : Object3DData :=
  mkData (position d) r (scale d) (castShadow d) (receiveShadow d) (payload d).

Definition set_scale (d : Object3DData) (k : Vector3) : Object3DData :=
  mkData (position d) (rotation d) k (castShadow d) (receiveShadow d)
    (payload d).

Definition set_shadows (d : Object3DData) (c r : bool) : Object3DData :=
  mkData (position d) (rotation d) (scale d) c r (payload d).

Definition on_root (f : Object3DData -> Object3DData) (o : Object3D)
  : Object3D :=
  match o with Node d cs => Node (f d) cs end.

Definition set_color (m : Material) (c : option Z) : Material :=
  mkMaterial c (metalness m) (roughness m) (wireframe m).

Definition set_metalness (m : Material) (v : option Q) : Material :=
  mkMaterial (color m) v (roughness m) (wireframe m).

Definition set_roughness (m : Material) (v : option Q) : Material :=
  mkMaterial (color m) (metalness m) v (wireframe m).

Definition set_wireframe (m : Material) (v : option bool) : Material :=
  mkMaterial (color m) (metalness m) (roughness m) v.

Definition set_intensity (l : Light) (v : Q) : Light :=
  mkLight (light_kind l) (light_color l) v (light_position l)
    (light_castShadow l).

Definition set_camera_position (c : PerspectiveCamera) (p : Vector3)
  : PerspectiveCamera :=
  mkCamera (fov c) (aspect c) (near c) (far c) (projection_aspect c) p.

Definition with_camera (s : State) (c : PerspectiveCamera) : State :=
  mkState (scene_background s) (scene_children s) c (renderer s) (controls s)
    (lights s) (gui s) (loaded s) (console s) (load_requests s)
    (frame_requested s) (frames_rendered s) (resize_listener s).

Definition with_renderer (s : State) (r : WebGLRenderer) : State :=
  mkState (scene_background s) (scene_children s) (camera s) r (controls s)
    (lights s) (gui s) (loaded s) (console s) (load_requests s)
    (frame_requested s) (frames_rendered s) (resize_listener s).

Definition with_lights (s : State) (ls : LightId -> Light) : State :=
  mkState (scene_background s) (scene_children s) (camera s) (renderer s)
    (controls s) ls (gui s) (loaded s) (console s) (load_requests s)
    (frame_requested s) (frames_rendered s) (resize_listener s).

Definition with_gui (s : State) (g : list Folder) : State :=
  mkState (scene_background s) (scene_children s) (camera s) (renderer s)
    (controls s) (lights s) g (loaded s) (console s) (load_requests s)
    (frame_requested s) (frames_rendered s) (resize_listener s).

Definition with_loaded (s : State) (l : option Loaded) : State :=
  mkState (scene_background s) (scene_children s) (camera s) (renderer s)
    (controls s) (lights s) (gui s) l (console s) (load_requests s)
    (frame_requested s) (frames_rendered s) (resize_listener s).

Definition with_console (s : State) (c : list LogEntry) : State :=
  mkState (scene_background s) (scene_children s) (camera s) (renderer s)
    (controls s) (lights s) (gui s) (loaded s) c (load_requests s)
    (frame_requested s) (frames_rendered s) (resize_listener s).

Definition with_frame (s : State) (requested : bool) (n : nat) : State :=
  mkState (scene_background s) (scene_children s) (camera s) (renderer s)
    (controls s) (lights s) (gui s) (loaded s) (console s) (load_requests s)
    requested n (resize_listener s).

(** *** Constructors with the library's defaults *)

(** [new THREE.WebGLRenderer()]: a 300 by 150 canvas, shadow mapping off. *)
Definition new_WebGLRenderer : WebGLRenderer :=
  mkRenderer 300 150 false PCFShadowMap false.

Definition setSize (r : WebGLRenderer) (width height : Z) : WebGLRenderer :=
  mkRenderer width height (shadowMap_enabled r) (shadowMap_type r)
    (domElement_attached r).

Definition appendChild (r : WebGLRenderer) : WebGLRenderer :=
  mkRenderer (renderer_width r) (renderer_height r) (shadowMap_enabled r)
    (shadowMap_type r) true.

Definition set_shadowMap (r : WebGLRenderer) (enabled : bool)
    (type : ShadowMapType) : WebGLRenderer :=
  mkRenderer (renderer_width r) (renderer_height r) enabled type
    (domElement_attached r).

(** [new THREE.PerspectiveCamera(fov, aspect, near, far)], at the origin. *)
Definition new_PerspectiveCamera (fov aspect near far : Q)
  : PerspectiveCamera :=
  mkCamera fov aspect near far aspect v0.

Definition new_AmbientLight (color : Z) (intensity : Q) : Light :=
  mkLight AmbientLight color intensity v0 false.

(** [new THREE.DirectionalLight(color, intensity)]: placed at (0, 1, 0),
    casting no shadow. *)
Definition new_DirectionalLight (color : Z) (intensity : Q) : Light :=
  mkLight DirectionalLight color intensity (vec3 0 1 0) false.

Definition set_light_position (l : Light) (p : Vector3) : Light :=
  mkLight (light_kind l) (light_color l) (intensity l) p (light_castShadow l).

Definition set_light_castShadow (l : Light) (b : bool) : Light :=
  mkLight (light_kind l) (light_color l) (intensity l) (light_position l) b.

(** [Color.setHex] keeps the 24 colour bits of its argument. *)
Definition Color_setHex (hex : Z) : Z := Z.land hex 16777215.

(** [Color.getHex] of a colour that is there.  The success callback reads
    it only from materials the traversal has given a colour (lemma
    [onLoad_visit_color]); the value at [None] is never used. *)
Definition Color_getHex (c : option Z) : Z :=
  match c with Some hex => hex | None => 0%Z end.

(** ** A small asset, used to run the definitions

    A root group at (1, 2, 3) with four meshes and a line.  Two meshes
    share material 0; material 1 has neither metalness nor roughness;
    material 3 comes without a colour. *)

Definition plain (p : Vector3) (x : Payload) : Object3DData :=
  mkData p v0 (vec3 1 1 1) false false x.

Definition houseStore : MaterialStore :=
  fun l =>
    match l with
    | O => mkMaterial (Some 16711680%Z) (Some (1 # 2)) (Some (1 # 2)) (Some false)
    | 1%nat => mkMaterial (Some 255%Z) None None (Some true)
    | 2%nat => mkMaterial (Some 65280%Z) None None None
    | _ => mkMaterial None (Some 0) (Some 1) (Some false)
    end.

Definition houseScene : Object3D :=
  Node (plain (vec3 1 2 3) Group)
    [ Node (plain v0 (Mesh [vec3 0 0 0; vec3 2 4 6] 0%nat)) [];
      Node (plain (vec3 4 0 0) (Mesh [vec3 0 0 0; vec3 1 1 1] 0%nat))
        [ Node (plain v0 (Mesh [vec3 (-5) 0 0] 1%nat)) [] ];
      Node (plain v0 (Line [vec3 0 1 1] 2%nat)) [];
      Node (plain v0 (Mesh [] 3%nat)) [] ].

Definition house : GLTF := mkGLTF houseScene houseStore.

(** Instances of the library parameters: no rotation is applied (every
    rotation of the asset is zero), [pi] by a rational and a controller
    that leaves the camera where it is. *)
Definition noRotation : Vector3 -> Vector3 -> Vector3 := fun _ p => p.

Definition PI_approx : Q := 355 # 113.

Definition restingControls : OrbitControls -> Vector3 -> Vector3 :=
  fun _ p => p.

(** A controller that enforces its distance limits for a camera on the
    z axis looking at the origin. *)
Definition limitingControls : OrbitControls -> Vector3 -> Vector3 :=
  fun c p =>
    vec3 (vx p) (vy p)
      (if Qltb (vz p) (minDistance c) then minDistance c
       else if Qltb (maxDistance c) (vz p) then maxDistance c else vz p).

(** A large asset: one mesh, 30 units wide. *)
Definition hall : GLTF :=
  mkGLTF (Node (plain v0 (Mesh [vec3 0 0 0; vec3 30 3 10] 0%nat)) [])
    houseStore.

(** An asset without a single vertex: groups and an empty mesh. *)
Definition frame : GLTF :=
  mkGLTF
    (Node (plain (vec3 1 2 3) Group)
       [ Node (plain (vec3 4 5 6) (Mesh [] 0%nat)) [];
         Node (plain v0 Group) [] ])
    houseStore.

(** Events before and after the load completes. *)
Definition earlyEvents : list Event :=
  [LoadProgress 1 4; AnimationFrame; NumberInput 0 1 (1 # 2);
   WindowResize 1024 768].

Definition lateEvents : list Event :=
  [AnimationFrame; BooleanInput 1 0 true; AnimationFrame].

(** ** The script *)

Section Script.

(** [Math.PI], Euler rotation of a point and the orbit controller's
    [update] (new camera position from the configuration and the current
    one) belong to the libraries and stay parameters. *)
Variable Math_PI : Q.
Variable applyEuler : Vector3 -> Vector3 -> Vector3.
Variable OrbitControls_update : OrbitControls -> Vector3 -> Vector3.

(** The local matrix of a node: scale, then rotate, then translate. *)
Definition matrix (d : Object3DData) : Matrix4 :=
  fun p => vadd (applyEuler (rotation d) (vmul p (scale d))) (position d).

(** [Box3.expandByObject]: the world matrix of the node is its parent's
    composed with its own; the geometry's bounding box, moved by the world
    matrix, is joined to the box; then the children. *)
Fixpoint expandByObject (parentWorld : Matrix4) (o : Object3D) (b : Box3)
  : Box3 :=
  match o with
  | Node d cs =>
      let matrixWorld : Matrix4 := fun p => parentWorld (matrix d p) in
      let b1 :=
        match geometry_of d with
        | Some g => union b (applyMatrix4 (setFromPoints g) matrixWorld)
        | None => b
        end in
      fold_left (fun acc c => expandByObject matrixWorld c acc) cs b1
  end.

(** [new THREE.Box3().setFromObject(object)] for a root without parent. *)
Definition setFromObject (o : Object3D) : Box3 :=
  expandByObject (fun p => p) o EmptyBox.

(** The box a node contributes follows a translation of its parent's
    world matrix. *)
Definition follows (d : Vector3) (o : Object3D) : Prop :=
  forall W W' b b',
    (forall p, moved d (W p) (W' p)) -> bmoved d b b' ->
    bmoved d (expandByObject W o b) (expandByObject W' o b').

(** *** Top level, lines 6-83 *)

Definition initialLights (l : LightId) : Light :=
  match l with
  | ambientLight => new_AmbientLight 16777215 (4 # 10)
  | mainLight =>
      set_light_castShadow
        (set_light_position (new_DirectionalLight 16777215 (8 # 10))
           (vec3 5 10 7)) true
  | fillLight =>
      set_light_position (new_DirectionalLight 16777215 (4 # 10))
        (vec3 (-5) 8 (-7))
  | topLight =>
      set_light_position (new_DirectionalLight 16777215 (3 # 10))
        (vec3 0 10 0)
  end.

Definition lightingFolder : Folder :=
  mkFolder "Lighting"
    [ NumberController "ambientIntensity" "Ambient Light" 0 1
        (intensity (initialLights ambientLight)) (setIntensity ambientLight);
      NumberController "mainIntensity" "Main Light" 0 1
        (intensity (initialLights mainLight)) (setIntensity mainLight);
      NumberController "fillIntensity" "Fill Light" 0 1
        (intensity (initialLights fillLight)) (setIntensity fillLight);
      NumberController "topIntensity" "Top Light" 0 1
        (intensity (initialLights topLight)) (setIntensity topLight) ].

(** [animate] (lines 196-203): ask for the next frame, advance the
    controller, draw. *)
Definition animate (s : State) : State :=
  let s1 := with_frame s true (frames_rendered s) in
  let s2 :=
    with_camera s1
      (set_camera_position (camera s1)
         (OrbitControls_update (controls s1) (camera_position (camera s1)))) in
  with_frame s2 (frame_requested s2) (Datatypes.S (frames_rendered s2)).

(** The state once the script has run to its last line, in a window of
    the given inner size.  The controller is given with the settings of
    lines 21-33.  For a window of height 0 the aspect is 0 here, where the
    script would compute [Infinity] or [NaN]. *)
Definition main (innerWidth innerHeight : Z) : State :=
  let camera0 :=
    new_PerspectiveCamera 75 (inject_Z innerWidth / inject_Z innerHeight)
      (1 # 10) 1000 in
  let camera1 :=
    set_camera_position camera0
      (vec3 (vx (camera_position camera0)) (vy (camera_position camera0)) 5) in
  let renderer1 :=
    appendChild (setSize new_WebGLRenderer innerWidth innerHeight) in
  let controls1 := mkControls true 0 (Math_PI / 2) 2 20 true (1 # 2) in
  let renderer2 := set_shadowMap renderer1 true PCFSoftShadowMap in
  animate
    (mkState 16777215
       [ChildLight ambientLight; ChildLight mainLight; ChildLight fillLight;
        ChildLight topLight]
       camera1 renderer2 controls1 initialLights [lightingFolder] None []
       ["assets/House_OKC.glb"%string]
       false 0 true).

(** *** The success callback, lines 90-186 *)

(** Lines 94-96. *)
Definition onLoad_box (gltf : GLTF) : Box3 := setFromObject (gltf_scene gltf).

Definition onLoad_center (gltf : GLTF) : Vector3 := getCenter (onLoad_box gltf).

Definition onLoad_centered (gltf : GLTF) : Object3D :=
  on_root (fun d => set_position d (vsub (position d) (onLoad_center gltf)))
    (gltf_scene gltf).

(** The traversal callback, lines 100-111. *)
Definition onLoad_visit (child : Object3DData) (acc : MaterialStore * JSSet)
  : Object3DData * (MaterialStore * JSSet) :=
  match payload child with
  | Mesh _ m =>
      let '(h, materials) := acc in
      let h1 :=
        match color (h m) with
        | None => store_set h m (set_color (h m) (Some 8421504%Z))
        | Some _ => h
        end in
      (set_shadows child true true, (h1, set_add materials m))
  | _ => (child, acc)
  end.

Definition onLoad_traversed (gltf : GLTF)
  : Object3D * (MaterialStore * JSSet) :=
  traverse onLoad_visit (onLoad_centered gltf) (gltf_materials gltf, []).

Definition onLoad_materials (gltf : GLTF) : JSSet :=
  snd (snd (onLoad_traversed gltf)).

(** Lines 114-123. *)
Definition groundMaterial : Material :=
  mkMaterial (Some 16777215%Z) (Some (1 # 10)) (Some (9 # 10)) (Some false).

Definition ground : GroundMesh :=
  mkGround (mkPlane 50 50) groundMaterial
    (vec3 (- Math_PI / 2) 0 0) (vec3 0 (-2) 0) false true.

(** Lines 129-134. *)
Record MatParams : Type := mkMatParams {
  params_color : Z;
  params_metalness : Q;
  params_roughness : Q;
  params_wireframe : bool
}.

Definition matParams (material : Material) : MatParams :=
  mkMatParams
    (Color_getHex (color material))
    (match metalness material with Some v => v | None => 2 # 10 end)
    (match roughness material with Some v => v | None => 8 # 10 end)
    (match wireframe material with Some true => true | _ => false end).

(** The body of [materials.forEach], lines 127-155.  The second argument
    [Set.prototype.forEach] passes is the element again, so
    [`Material ${index + 1}`] is the same text for every material. *)
Definition matFolder (h : MaterialStore) (l : loc) : Folder :=
  let material := h l in
  let p := matParams material in
  mkFolder "Material [object Object]1"
    ([ColorController "color" (params_color p) (setHex l)]
     ++ match metalness material with
        | Some _ =>
            [NumberController "metalness" "metalness" 0 1 (params_metalness p)
               (setMetalness l)]
        | None => []
        end
     ++ match roughness material with
        | Some _ =>
            [NumberController "roughness" "roughness" 0 1 (params_roughness p)
               (setRoughness l)]
        | None => []
        end
     ++ [BooleanController "wireframe" (params_wireframe p) (setWireframe l)]).

(** Lines 158-177. *)
Definition modelFolder : Folder :=
  mkFolder "Model"
    [ NumberController "scale" "scale" (1 # 10) 2 1 setScale;
      NumberController "rotationX" "rotationX" 0 (Math_PI * 2) 0 setRotationX;
      NumberController "rotationY" "rotationY" 0 (Math_PI * 2) 0 setRotationY;
      NumberController "rotationZ" "rotationZ" 0 (Math_PI * 2) 0 setRotationZ ].

(** [Math.max(size.x, size.y, size.z)]. *)
Definition maxDim (size : Vector3) : Q :=
  Qmax (Qmax (vx size) (vy size)) (vz size).

(** Lines 182-184: the size is taken from the box of line 94. *)
Definition onLoad_maxDim (gltf : GLTF) : Q :=
  let size := getSize (onLoad_box gltf) in
  maxDim size.

(** The camera [controls.update()] is called on, line 185. *)
Definition onLoad_camera (gltf : GLTF) (s : State) : PerspectiveCamera :=
  set_camera_position (camera s)
    (vec3 (vx (camera_position (camera s))) (vy (camera_position (camera s)))
       (onLoad_maxDim gltf * 2)).

Definition onLoad (gltf : GLTF) (s : State) : State :=
  let '(object, (h, materials)) := onLoad_traversed gltf in
  let camera1 := onLoad_camera gltf s in
  mkState (scene_background s)
    ((scene_children s ++ [ChildGround ground]) ++ [ChildObject])
    (set_camera_position camera1
       (OrbitControls_update (controls s) (camera_position camera1)))
    (renderer s) (controls s) (lights s)
    ((gui s ++ map (matFolder h) materials) ++ [modelFolder])
    (Some (mkLoaded object h))
    (console s) (load_requests s) (frame_requested s) (frames_rendered s)
    (resize_listener s).

(** *** The other callbacks *)

(** Lines 187-189.  [x / 0] is [0] in [Q]; the script would print
    [Infinity] or [NaN] there. *)
Definition onProgress (xhr_loaded xhr_total : Q) (s : State) : State :=
  with_console s (console s ++ [console_log (xhr_loaded / xhr_total * 100)]).

(** Lines 190-192. *)
Definition onError (error : string) (s : State) : State :=
  with_console s (console s ++ [console_error error]).

(** Lines 206-210. *)
Definition onResize (innerWidth innerHeight : Z) (s : State) : State :=
  let ratio := inject_Z innerWidth / inject_Z innerHeight in
  let c := camera s in
  let r := renderer s in
  with_renderer
    (with_camera s
       (mkCamera (fov c) ratio (near c) (far c) ratio (camera_position c)))
    (setSize r innerWidth innerHeight).

Definition on_material (l : loc) (f : Material -> Material) (s : State)
  : State :=
  with_loaded s
    (option_map
       (fun ld => mkLoaded (object ld) (store_set (store ld) l (f (store ld l))))
       (loaded s)).

Definition on_object (f : Object3DData -> Object3DData) (s : State) : State :=
  with_loaded s
    (option_map (fun ld => mkLoaded (on_root f (object ld)) (store ld))
       (loaded s)).

(** The bodies of the on-change callbacks. *)
Definition invokeNumber (cb : NumberCallback) (value : Q) (s : State) : State :=
  match cb with
  | setIntensity l =>
      with_lights s
        (fun l' =>
           if LightId_eqb l' l then set_intensity (lights s l') value
           else lights s l')
  | setMetalness m => on_material m (fun x => set_metalness x (Some value)) s
  | setRoughness m => on_material m (fun x => set_roughness x (Some value)) s
  | setScale => on_object (fun d => set_scale d (vec3 value value value)) s
  | setRotationX =>
      on_object
        (fun d =>
           set_rotation d (vec3 value (vy (rotation d)) (vz (rotation d)))) s
  | setRotationY =>
      on_object
        (fun d =>
           set_rotation d (vec3 (vx (rotation d)) value (vz (rotation d)))) s
  | setRotationZ =>
      on_object
        (fun d =>
           set_rotation d (vec3 (vx (rotation d)) (vy (rotation d)) value)) s
  end.

Definition invokeColor (cb : ColorCallback) (value : Z) (s : State) : State :=
  match cb with
  | setHex m =>
      on_material m (fun x => set_color x (Some (Color_setHex value))) s
  end.

Definition invokeBoolean (cb : BooleanCallback) (value : bool) (s : State)
  : State :=
  match cb with
  | setWireframe m => on_material m (fun x => set_wireframe x (Some value)) s
  end.

(** *** The host: events delivered to the script

    The panel hands a number control's input, clamped to the control's
    range, to its callback and keeps it as the control's value. *)

Definition clamp (value min max : Q) : Q :=
  if Qltb value min then min else if Qltb max value then max else value.

Fixpoint update_nth {A : Type} (n : nat) (x : A) (l : list A) : list A :=
  match l, n with
  | [], _ => []
  | _ :: l', O => x :: l'
  | y :: l', Datatypes.S n' => y :: update_nth n' x l'
  end.

Definition nth_controller (g : list Folder) (f c : nat) : option Controller :=
  match nth_error g f with
  | Some fo => nth_error (controllers fo) c
  | None => None
  end.

Definition set_controller (g : list Folder) (f c : nat) (x : Controller)
  : list Folder :=
  match nth_error g f with
  | Some fo =>
      update_nth f (mkFolder (title fo) (update_nth c x (controllers fo))) g
  | None => g
  end.

Definition step (s : State) (e : Event) : State :=
  match e with
  | LoadSuccess gltf => onLoad gltf s
  | LoadProgress l t => onProgress l t s
  | LoadError error => onError error s
  | AnimationFrame =>
      if frame_requested s
      then animate (with_frame s false (frames_rendered s))
      else s
  | WindowResize w h => if resize_listener s then onResize w h s else s
  | NumberInput f c v =>
      match nth_controller (gui s) f c with
      | Some (NumberController p n mn mx _ cb) =>
          let v' := clamp v mn mx in
          invokeNumber cb v'
            (with_gui s
               (set_controller (gui s) f c (NumberController p n mn mx v' cb)))
      | _ => s
      end
  | ColorInput f c v =>
      match nth_controller (gui s) f c with
      | Some (ColorController p _ cb) =>
          invokeColor cb v
            (with_gui s (set_controller (gui s) f c (ColorController p v cb)))
      | _ => s
      end
  | BooleanInput f c v =>
      match nth_controller (gui s) f c with
      | Some (BooleanController p _ cb) =>
          invokeBoolean cb v
            (with_gui s (set_controller (gui s) f c (BooleanController p v cb)))
      | _ => s
      end
  end.

Definition run (s : State) (events : list Event) : State :=
  fold_left step events s.

(** *** Observations used in the statements *)

Definition is_completion (e : Event) : bool :=
  match e with LoadSuccess _ | LoadError _ => true | _ => false end.

Definition is_success (e : Event) : bool :=
  match e with LoadSuccess _ => true | _ => false end.

Definition is_ground (c : SceneChild) : bool :=
  match c with ChildGround _ => true | _ => false end.

Definition is_object (c : SceneChild) : bool :=
  match c with ChildObject => true | _ => false end.

Definition grounds (s : State) : list SceneChild :=
  filter is_ground (scene_children s).

Definition is_error (l : LogEntry) : bool :=
  match l with console_error _ => true | _ => false end.

(** The material a callback writes to. *)
Definition controller_material (c : Controller) : option loc :=
  match c with
  | NumberController _ _ _ _ _ (setMetalness m)
  | NumberController _ _ _ _ _ (setRoughness m)
  | ColorController _ _ (setHex m)
  | BooleanController _ _ (setWireframe m) => Some m
  | _ => None
  end.

Definition controller_property (c : Controller) : string :=
  match c with
  | NumberController p _ _ _ _ _ | ColorController p _ _
  | BooleanController p _ _ => p
  end.

(** A folder is a section of material [l] when one of its controls writes
    to [l]. *)
Definition section_of (l : loc) (f : Folder) : bool :=
  existsb
    (fun c =>
       match controller_material c with
       | Some m => Nat.eqb m l
       | None => false
       end) (controllers f).

Definition has_control (p : string) (f : Folder) : bool :=
  existsb (fun c => String.eqb (controller_property c) p) (controllers f).

(** The materials of the mesh nodes in traversal order, one entry per
    mesh. *)
Fixpoint mesh_materials (o : Object3D) : list loc :=
  match o with
  | Node d cs =>
      match payload d with Mesh _ m => [m] | _ => [] end
      ++ flat_map mesh_materials cs
  end.

(** What the traversal of lines 100-111 amounts to: on the tree, the two
    shadow flags of every mesh; on the store and the set, one step per
    mesh. *)
Fixpoint enableShadows (o : Object3D) : Object3D :=
  match o with
  | Node d cs =>
      Node (if isMesh d then set_shadows d true true else d)
        (map enableShadows cs)
  end.

Definition collect (acc : MaterialStore * JSSet) (m : loc)
  : MaterialStore * JSSet :=
  (match color (fst acc m) with
   | None => store_set (fst acc) m (set_color (fst acc m) (Some 8421504%Z))
   | Some _ => fst acc
   end,
   set_add (snd acc) m).

Definition traverse_children {S : Type}
    (cb : Object3DData -> S -> Object3DData * S)
  : list Object3D -> S -> list Object3D * S :=
  fix go (l : list Object3D) (s : S) : list Object3D * S :=
    match l with
    | [] => ([], s)
    | c :: l' =>
        let '(c', s') := traverse cb c s in
        let '(l'', s'') := go l' s' in
        (c' :: l'', s'')
    end.


(** The root and the material store the success callback leaves behind,
    and the folders it appends to the panel. *)
Definition onLoad_object (gltf : GLTF) : Object3D :=
  fst (onLoad_traversed gltf).

Definition onLoad_store (gltf : GLTF) : MaterialStore :=
  fst (snd (onLoad_traversed gltf)).

Definition onLoad_folders (gltf : GLTF) : list Folder :=
  map (matFolder (onLoad_store gltf)) (onLoad_materials gltf) ++ [modelFolder].

(** The material a mesh node refers to. *)
Definition mesh_material (d : Object3DData) : option loc :=
  match payload d with Mesh _ m => Some m | _ => None end.

(** Where the control of each light sits in the Lighting folder. *)
Definition light_index (l : LightId) : nat :=
  match l with
  | ambientLight => 0 | mainLight => 1 | fillLight => 2 | topLight => 3
  end%nat.

Definition lights_only : list SceneChild :=
  [ChildLight ambientLight; ChildLight mainLight; ChildLight fillLight;
   ChildLight topLight].

Definition is_frame (e : Event) : bool :=
  match e with AnimationFrame => true | _ => false end.

(** [s'] is [s] after a write to material [l] that established [P]: the
    loaded root is the same, every mesh referring to [l] finds a material
    with [P], every other material is as it was, and the scene's children
    (the ground and its own material among them) are untouched. *)
Definition written (l : loc) (P : Material -> Prop) (s s' : State) : Prop :=
  exists ld ld',
    loaded s = Some ld /\ loaded s' = Some ld' /\
    object ld' = object ld /\
    P (store ld' l) /\
    (forall d m,
        In d (nodes (object ld')) -> mesh_material d = Some m ->
        (m = l -> P (store ld' m)) /\
        (m <> l -> store ld' m = store ld m)) /\
    (forall l', l' <> l -> store ld' l' = store ld l') /\
    scene_children s' = scene_children s.

(** The state as long as the load has not succeeded. *)
Definition preload (s : State) : Prop :=
  scene_children s = lights_only /\
  loaded s = None /\
  load_requests s = ["assets/House_OKC.glb"%string] /\
  frame_requested s = true /\
  map title (gui s) = ["Lighting"%string].

Definition logged_error (e : Event) : list LogEntry :=
  match e with LoadError x => [console_error x] | _ => [] end.

(** Case analysis on what a handler looks up. *)
Ltac handler_cases :=
  repeat match goal with
    | |- context [match ?x with _ => _ end] => destruct x
    end.

(** *** Further observations *)

(** What a light keeps for good: everything but its intensity. *)
Definition light_fixture (x : Light)
  : LightKind * Z * Vector3 * bool :=
  (light_kind x, light_color x, light_position x, light_castShadow x).

(** The reports an event leaves on the console: one per progress event and
    one per failure. *)
Definition is_report (e : Event) : bool :=
  match e with LoadProgress _ _ | LoadError _ => true | _ => false end.

(** What lines 106-108 do to one node. *)
Definition withShadows (d : Object3DData) : Object3DData :=
  if isMesh d then set_shadows d true true else d.

(** What lines 103-105 do to one material. *)
Definition ensureColor (m : Material) : Material :=
  match color m with
  | None => set_color m (Some 8421504%Z)
  | Some _ => m
  end.

(** No node of the tree has a vertex. *)
Definition vertexless (o : Object3D) : bool :=
  forallb
    (fun d =>
       match geometry_of d with
       | Some (_ :: _) => false
       | _ => true
       end) (nodes o).

(** A control of a material's section starts at the material's own value:
    colour, metalness and roughness as they are, the wireframe box ticked
    exactly when the material is wireframe. *)
Definition starts_at (m : Material) (c : Controller) : Prop :=
  match c with
  | ColorController _ v _ => color m = Some v
  | NumberController _ _ _ _ v (setMetalness _) => metalness m = Some v
  | NumberController _ _ _ _ v (setRoughness _) => roughness m = Some v
  | NumberController _ _ _ _ _ _ => False
  | BooleanController _ v _ =>
      v = match wireframe m with Some true => true | _ => false end
  end.

(** Every control that writes a light's intensity has the range [0, 1]. *)
Definition intensity_ranges (g : list Folder) : Prop :=
  forall fo p n mn mx v l,
    In fo g ->
    In (NumberController p n mn mx v (setIntensity l)) (controllers fo) ->
    mn = 0 /\ mx = 1.

(** The elements of a list, each once, in the order of their first
    occurrence. *)
Fixpoint first_occurrences (l : list loc) : list loc :=
  match l with
  | [] => []
  | x :: r => x :: filter (fun y => negb (Nat.eqb y x)) (first_occurrences r)
  end.

Definition is_box (b : Box3) : bool :=
  match b with Box _ _ => true | EmptyBox => false end.

(** ** Vectors and boxes up to [==] *)

Lemma veq_refl (a : Vector3) : veq a a.
Proof. unfold veq; repeat split; reflexivity. Qed.

Lemma veq_sym (a b : Vector3) : veq a b -> veq b a.
Proof. unfold veq; intros (H1 & H2 & H3); repeat split; symmetry; assumption. Qed.

Lemma veq_trans (a b c : Vector3) : veq a b -> veq b c -> veq a c.
Proof.
  unfold veq; intros (H1 & H2 & H3) (K1 & K2 & K3); repeat split;
    etransitivity; eassumption.
Qed.

Lemma beq_refl (b : Box3) : beq b b.
Proof. destruct b; simpl; auto using veq_refl. Qed.

Lemma beq_trans (a b c : Box3) : beq a b -> beq b c -> beq a c.
Proof.
  destruct a, b, c; simpl; try tauto.
  intros [H1 H2] [K1 K2]; split; eapply veq_trans; eassumption.
Qed.

Lemma Qmin_moved (a a' p p' d : Q) :
  a' == a + d -> p' == p + d -> Qmin a' p' == Qmin a p + d.
Proof.
  intros Ha Hp. rewrite <- Q.plus_min_distr_r.
  apply Q.min_compat; assumption.
Qed.

Lemma Qmax_moved (a a' p p' d : Q) :
  a' == a + d -> p' == p + d -> Qmax a' p' == Qmax a p + d.
Proof.
  intros Ha Hp. rewrite <- Q.plus_max_distr_r.
  apply Q.max_compat; assumption.
Qed.

Lemma vmin_moved (d a a' p p' : Vector3) :
  moved d a a' -> moved d p p' -> moved d (vmin a p) (vmin a' p').
Proof.
  unfold moved, veq; simpl. intros (A1 & A2 & A3) (P1 & P2 & P3).
  repeat split; apply Qmin_moved; assumption.
Qed.

Lemma vmax_moved (d a a' p p' : Vector3) :
  moved d a a' -> moved d p p' -> moved d (vmax a p) (vmax a' p').
Proof.
  unfold moved, veq; simpl. intros (A1 & A2 & A3) (P1 & P2 & P3).
  repeat split; apply Qmax_moved; assumption.
Qed.

Lemma expandByPoint_moved (d : Vector3) (b b' : Box3) (p p' : Vector3) :
  bmoved d b b' -> moved d p p' ->
  bmoved d (expandByPoint b p) (expandByPoint b' p').
Proof.
  unfold bmoved.
  destruct b as [|mn mx], b' as [|mn' mx']; simpl; try tauto.
  intros [Hmn Hmx] H. split.
  - apply (vmin_moved d mn mn' p p'); assumption.
  - apply (vmax_moved d mx mx' p p'); assumption.
Qed.

Lemma fold_expandByPoint_moved (d : Vector3) (pts pts' : list Vector3) :
  Forall2 (moved d) pts pts' ->
  forall b b', bmoved d b b' ->
  bmoved d (fold_left expandByPoint pts b) (fold_left expandByPoint pts' b').
Proof.
  induction 1 as [|p p' pts pts' Hp _ IH]; simpl; intros b b' Hb.
  - exact Hb.
  - apply IH. apply expandByPoint_moved; assumption.
Qed.

Lemma setFromPoints_moved (d : Vector3) (pts pts' : list Vector3) :
  Forall2 (moved d) pts pts' ->
  bmoved d (setFromPoints pts) (setFromPoints pts').
Proof.
  intros H. apply fold_expandByPoint_moved; [exact H | exact I].
Qed.

Lemma union_moved (d : Vector3) (a a' b b' : Box3) :
  bmoved d a a' -> bmoved d b b' -> bmoved d (union a b) (union a' b').
Proof.
  unfold bmoved.
  destruct a as [|amn amx], a' as [|amn' amx'], b as [|bmn bmx],
    b' as [|bmn' bmx']; simpl; try tauto.
  intros [A1 A2] [B1 B2]. split.
  - apply (vmin_moved d amn amn' bmn bmn'); assumption.
  - apply (vmax_moved d amx amx' bmx bmx'); assumption.
Qed.

Lemma vle_refl (a : Vector3) : vle a a.
Proof. unfold vle; repeat split; apply Qle_refl. Qed.

Lemma expandByPoint_ordered (b : Box3) (p : Vector3) :
  ordered b -> ordered (expandByPoint b p).
Proof.
  destruct b as [|mn mx]; simpl; intros H.
  - apply vle_refl.
  - destruct H as (H1 & H2 & H3). unfold vle; simpl.
    repeat split;
      (eapply Qle_trans; [apply Q.le_min_l|];
       eapply Qle_trans; [eassumption|]; apply Q.le_max_l).
Qed.

Lemma setFromPoints_ordered (pts : list Vector3) : ordered (setFromPoints pts).
Proof.
  unfold setFromPoints.
  assert (H : forall b, ordered b -> ordered (fold_left expandByPoint pts b)).
  { induction pts as [|p pts IH]; simpl; intros b Hb.
    - exact Hb.
    - apply IH. apply expandByPoint_ordered. exact Hb. }
  apply H. exact I.
Qed.

Lemma union_ordered (a b : Box3) : ordered a -> ordered b -> ordered (union a b).
Proof.
  destruct a as [|amn amx], b as [|bmn bmx]; simpl; auto.
  intros (A1 & A2 & A3) (B1 & B2 & B3). unfold vle; simpl.
  repeat split;
    (eapply Qle_trans; [apply Q.le_min_l|];
     eapply Qle_trans; [eassumption|]; apply Q.le_max_l).
Qed.

Lemma Qltb_false (a b : Q) : b <= a -> Qltb a b = false.
Proof.
  intros H. unfold Qltb. apply Qle_bool_iff in H. rewrite H. reflexivity.
Qed.

Lemma isEmpty_Box (mn mx : Vector3) : vle mn mx -> isEmpty (Box mn mx) = false.
Proof.
  intros (H1 & H2 & H3). simpl.
  rewrite !Qltb_false by assumption. reflexivity.
Qed.

Lemma applyMatrix4_ordered (b : Box3) (m : Matrix4) :
  ordered b -> ordered (applyMatrix4 b m).
Proof.
  intros H. unfold applyMatrix4. destruct (isEmpty b); [exact H|].
  destruct b; [exact H | apply setFromPoints_ordered].
Qed.

Lemma map_moved (d : Vector3) (W W' : Matrix4) (l : list Vector3) :
  (forall p, moved d (W p) (W' p)) -> Forall2 (moved d) (map W l) (map W' l).
Proof.
  intros H. induction l; simpl; constructor; auto.
Qed.

Lemma applyMatrix4_moved (d : Vector3) (W W' : Matrix4) (g : Box3) :
  ordered g -> (forall p, moved d (W p) (W' p)) ->
  bmoved d (applyMatrix4 g W) (applyMatrix4 g W').
Proof.
  intros Hg HW. destruct g as [|mn mx].
  - exact I.
  - unfold applyMatrix4. rewrite (isEmpty_Box mn mx Hg).
    apply setFromPoints_moved, map_moved, HW.
Qed.

(** *** The box of a node follows a translation of its parent *)

Lemma children_follow (d : Vector3) (cs : list Object3D) :
  Forall (follows d) cs ->
  forall W W' b b',
    (forall p, moved d (W p) (W' p)) -> bmoved d b b' ->
    bmoved d (fold_left (fun acc c => expandByObject W c acc) cs b)
      (fold_left (fun acc c => expandByObject W' c acc) cs b').
Proof.
  induction 1 as [|c cs Hc _ IH]; simpl; intros W W' b b' HW Hb.
  - exact Hb.
  - apply IH; [exact HW|]. apply Hc; assumption.
Qed.

Lemma geometry_moved (d : Vector3) (W W' : Matrix4) (g : option (list Vector3))
    (b b' : Box3) :
  (forall p, moved d (W p) (W' p)) -> bmoved d b b' ->
  bmoved d
    match g with
    | Some vs => union b (applyMatrix4 (setFromPoints vs) W)
    | None => b
    end
    match g with
    | Some vs => union b' (applyMatrix4 (setFromPoints vs) W')
    | None => b'
    end.
Proof.
  intros HW Hb. destruct g as [vs|]; [|exact Hb].
  apply union_moved; [exact Hb|].
  apply applyMatrix4_moved; [apply setFromPoints_ordered | exact HW].
Qed.

Lemma expandByObject_follows (d : Vector3) (o : Object3D) : follows d o.
Proof.
  induction o as [x cs IH] using Object3D_ind.
  intros W W' b b' HW Hb. cbn [expandByObject].
  apply children_follow; [exact IH | |].
  - intros p. apply HW.
  - apply geometry_moved; [intros p; apply HW | exact Hb].
Qed.

(** *** Centering (lines 94-96) moves the box by minus its centre *)

Lemma centered_box (gltf : GLTF) :
  bmoved (vopp (onLoad_center gltf)) (onLoad_box gltf)
    (setFromObject (onLoad_centered gltf)).
Proof.
  unfold onLoad_box, onLoad_centered, setFromObject.
  generalize (onLoad_center gltf) as c. intros c.
  destruct (gltf_scene gltf) as [d cs]. cbn [on_root expandByObject].
  apply children_follow.
  - apply Forall_forall. intros o _. apply expandByObject_follows.
  - intros p. unfold moved, veq, matrix, vopp; simpl. repeat split; ring.
  - apply geometry_moved; [|exact I].
    intros p. unfold moved, veq, matrix, vopp; simpl. repeat split; ring.
Qed.

Lemma Qle_bool_moved (a b d : Q) : Qle_bool (a + d) (b + d) = Qle_bool a b.
Proof.
  destruct (Qle_bool a b) eqn:E.
  - apply Qle_bool_iff. apply Qle_bool_iff in E. lra.
  - destruct (Qle_bool (a + d) (b + d)) eqn:E'; [|reflexivity].
    apply Qle_bool_iff in E'.
    assert (H : a <= b) by lra. apply Qle_bool_iff in H. congruence.
Qed.

Lemma isEmpty_translateBox (d : Vector3) (b : Box3) :
  isEmpty (translateBox d b) = isEmpty b.
Proof.
  destruct b as [|mn mx]; [reflexivity|].
  unfold isEmpty, translateBox, Qltb, vadd; simpl.
  rewrite !Qle_bool_moved. reflexivity.
Qed.

Lemma isEmpty_beq (a b : Box3) : beq a b -> isEmpty a = isEmpty b.
Proof.
  destruct a as [|amn amx], b as [|bmn bmx]; simpl; try tauto.
  intros [(H1 & H2 & H3) (K1 & K2 & K3)]. unfold Qltb.
  rewrite (Qleb_comp _ _ H1 _ _ K1), (Qleb_comp _ _ H2 _ _ K2),
    (Qleb_comp _ _ H3 _ _ K3).
  reflexivity.
Qed.


Lemma getSize_beq (a b : Box3) : beq a b -> veq (getSize a) (getSize b).
Proof.
  intros H. unfold getSize. rewrite (isEmpty_beq a b H).
  destruct (isEmpty b); [apply veq_refl|].
  destruct a as [|amn amx], b as [|bmn bmx]; simpl in H; try tauto.
  - apply veq_refl.
  - destruct H as [(H1 & H2 & H3) (K1 & K2 & K3)].
    unfold veq; simpl. rewrite H1, H2, H3, K1, K2, K3.
    repeat split; reflexivity.
Qed.

Lemma getSize_translateBox (d : Vector3) (b : Box3) :
  veq (getSize (translateBox d b)) (getSize b).
Proof.
  unfold getSize. rewrite isEmpty_translateBox.
  destruct (isEmpty b); [apply veq_refl|].
  destruct b as [|mn mx]; [apply veq_refl|].
  unfold veq; simpl. repeat split; ring.
Qed.


Lemma maxDim_veq (a b : Vector3) : veq a b -> maxDim a == maxDim b.
Proof.
  intros (H1 & H2 & H3). unfold maxDim.
  apply Q.max_compat; [apply Q.max_compat|]; assumption.
Qed.

(** *** The traversal of lines 100-111 *)

Lemma traverse_Node {S : Type} (cb : Object3DData -> S -> Object3DData * S)
    (d : Object3DData) (cs : list Object3D) (s : S) :
  traverse cb (Node d cs) s =
  (Node (fst (cb d s)) (fst (traverse_children cb cs (snd (cb d s)))),
   snd (traverse_children cb cs (snd (cb d s)))).
Proof.
  cbn [traverse]. destruct (cb d s) as [d' s1]. cbn [fst snd].
  fold (traverse_children cb).
  destruct (traverse_children cb cs s1) as [cs' s2]. reflexivity.
Qed.

Lemma onLoad_visit_spec (d : Object3DData) (acc : MaterialStore * JSSet) :
  onLoad_visit d acc =
  (if isMesh d then set_shadows d true true else d,
   fold_left collect
     match payload d with Mesh _ m => [m] | _ => [] end acc).
Proof.
  unfold onLoad_visit, isMesh. destruct (payload d); try reflexivity.
  destruct acc as [h ms]. reflexivity.
Qed.

Lemma traverse_onLoad_visit (o : Object3D) :
  forall acc,
    traverse onLoad_visit o acc =
    (enableShadows o, fold_left collect (mesh_materials o) acc).
Proof.
  induction o as [d cs IH] using Object3D_ind. intros acc.
  rewrite traverse_Node, onLoad_visit_spec. cbn [fst snd].
  cbn [enableShadows mesh_materials]. rewrite fold_left_app.
  generalize (fold_left collect
                match payload d with Mesh _ m => [m] | _ => [] end acc).
  clear acc. intros acc.
  assert (H : traverse_children onLoad_visit cs acc =
              (map enableShadows cs,
               fold_left collect (flat_map mesh_materials cs) acc)).
  { revert acc. induction IH as [|c cs Hc _ IHcs]; intros acc.
    - reflexivity.
    - cbn [traverse_children]. rewrite Hc.
      fold (traverse_children onLoad_visit). rewrite IHcs.
      cbn [map flat_map]. rewrite fold_left_app. reflexivity. }
  rewrite H. reflexivity.
Qed.

Lemma fold_enableShadows (cs : list Object3D) :
  Forall
    (fun c =>
       forall W b, expandByObject W (enableShadows c) b = expandByObject W c b)
    cs ->
  forall W b,
    fold_left (fun acc c => expandByObject W c acc) (map enableShadows cs) b =
    fold_left (fun acc c => expandByObject W c acc) cs b.
Proof.
  induction 1 as [|c cs Hc _ IH]; intros W b; simpl.
  - reflexivity.
  - rewrite Hc. apply IH.
Qed.

Lemma expandByObject_enableShadows (o : Object3D) :
  forall W b, expandByObject W (enableShadows o) b = expandByObject W o b.
Proof.
  induction o as [d cs IH] using Object3D_ind. intros W b.
  cbn [enableShadows expandByObject].
  assert (Hm : matrix (if isMesh d then set_shadows d true true else d)
               = matrix d) by (destruct (isMesh d); reflexivity).
  assert (Hg : geometry_of (if isMesh d then set_shadows d true true else d)
               = geometry_of d) by (destruct (isMesh d); reflexivity).
  rewrite Hm, Hg. apply fold_enableShadows. exact IH.
Qed.

(** *** What the success callback leaves behind *)

Lemma onLoad_traversed_spec (gltf : GLTF) :
  onLoad_traversed gltf =
  (enableShadows (onLoad_centered gltf),
   fold_left collect (mesh_materials (gltf_scene gltf))
     (gltf_materials gltf, [])).
Proof.
  unfold onLoad_traversed. rewrite traverse_onLoad_visit.
  unfold onLoad_centered. destruct (gltf_scene gltf); reflexivity.
Qed.

Lemma onLoad_fields (gltf : GLTF) (s : State) :
  onLoad gltf s =
  mkState (scene_background s)
    ((scene_children s ++ [ChildGround ground]) ++ [ChildObject])
    (set_camera_position (onLoad_camera gltf s)
       (OrbitControls_update (controls s)
          (camera_position (onLoad_camera gltf s))))
    (renderer s) (controls s) (lights s)
    (gui s ++ onLoad_folders gltf)
    (Some (mkLoaded (onLoad_object gltf) (onLoad_store gltf)))
    (console s) (load_requests s) (frame_requested s) (frames_rendered s)
    (resize_listener s).
Proof.
  unfold onLoad, onLoad_folders, onLoad_object, onLoad_store, onLoad_materials.
  destruct (onLoad_traversed gltf) as [o [h ms]]. cbn [fst snd].
  rewrite app_assoc. reflexivity.
Qed.

Lemma onLoad_object_spec (gltf : GLTF) :
  onLoad_object gltf = enableShadows (onLoad_centered gltf).
Proof. unfold onLoad_object. rewrite onLoad_traversed_spec. reflexivity. Qed.

Lemma setFromObject_onLoad_object (gltf : GLTF) :
  setFromObject (onLoad_object gltf) = setFromObject (onLoad_centered gltf).
Proof.
  rewrite onLoad_object_spec. unfold setFromObject.
  apply expandByObject_enableShadows.
Qed.

Lemma onLoad_object_position (gltf : GLTF) :
  position (data_of (onLoad_object gltf)) =
  vsub (position (data_of (gltf_scene gltf)))
    (getCenter (setFromObject (gltf_scene gltf))).
Proof.
  rewrite onLoad_object_spec. unfold onLoad_centered, onLoad_center, onLoad_box.
  destruct (gltf_scene gltf) as [d cs]. cbn [on_root enableShadows data_of].
  destruct (isMesh _); reflexivity.
Qed.


(** C1 (amended).  The success callback assigns to the camera's z exactly
    twice the largest dimension of the box computed on line 94, before the
    root is centred; x and y are kept.  That box is not computed again, but
    centring is a translation, so in exact arithmetic the value is also
    twice the largest dimension of the box of the centred root.  The
    controller's [update] is then applied to that camera position and its
    result is the position the callback leaves. *)
Theorem C1_camera_depth (gltf : GLTF) (s : State) :
  let before := setFromObject (gltf_scene gltf) in
  let assigned := camera_position (onLoad_camera gltf s) in
  vz assigned = maxDim (getSize before) * 2 /\
  vx assigned = vx (camera_position (camera s)) /\
  vy assigned = vy (camera_position (camera s)) /\
  camera_position (camera (onLoad gltf s)) =
    OrbitControls_update (controls s) assigned /\
  exists ld,
    loaded (onLoad gltf s) = Some ld /\
    vz assigned == maxDim (getSize (setFromObject (object ld))) * 2.
Proof.
  cbv zeta. rewrite onLoad_fields. cbn [camera loaded].
  repeat split.
  exists (mkLoaded (onLoad_object gltf) (onLoad_store gltf)).
  split; [reflexivity|]. cbn [object].
  rewrite setFromObject_onLoad_object.
  unfold onLoad_camera, onLoad_maxDim. cbn [set_camera_position camera_position vz].
  apply Qmult_comp; [|reflexivity].
  apply maxDim_veq. apply veq_sym.
  eapply veq_trans.
  - apply getSize_beq. apply centered_box.
  - apply getSize_translateBox.
Qed.

(** *** The materials set *)

Lemma existsb_eqb_In (l : loc) (s : JSSet) :
  existsb (Nat.eqb l) s = true <-> In l s.
Proof.
  rewrite existsb_exists. split.
  - intros (x & Hx & E). apply Nat.eqb_eq in E. subst. exact Hx.
  - intros H. exists l. split; [exact H | apply Nat.eqb_refl].
Qed.

Lemma set_add_In (s : JSSet) (l x : loc) :
  In x (set_add s l) <-> In x s \/ x = l.
Proof.
  unfold set_add. destruct (existsb (Nat.eqb l) s) eqn:E.
  - apply existsb_eqb_In in E. split; [tauto|].
    intros [H|H]; [exact H | subst; exact E].
  - rewrite in_app_iff. simpl. intuition auto.
Qed.

Lemma set_add_NoDup (s : JSSet) (l : loc) : NoDup s -> NoDup (set_add s l).
Proof.
  intros H. unfold set_add. destruct (existsb (Nat.eqb l) s) eqn:E.
  - exact H.
  - assert (Hn : ~ In l s).
    { intros Hin. apply existsb_eqb_In in Hin. congruence. }
    clear E. induction H as [|y s Hy Hs IH]; simpl.
    + constructor; [intros []|constructor].
    + constructor.
      * rewrite in_app_iff. simpl. intros [K|[K|[]]]; [tauto|].
        subst. apply Hn. left. reflexivity.
      * apply IH. intros K. apply Hn. right. exact K.
Qed.

Lemma collect_set (ms : list loc) :
  forall acc : MaterialStore * JSSet, snd (fold_left collect ms acc) = fold_left set_add ms (snd acc).
Proof.
  induction ms as [|m ms IH]; intros acc; simpl.
  - reflexivity.
  - rewrite IH. reflexivity.
Qed.

Lemma fold_set_add_In (ms : list loc) :
  forall s x, In x (fold_left set_add ms s) <-> In x s \/ In x ms.
Proof.
  induction ms as [|m ms IH]; intros s x; simpl.
  - tauto.
  - rewrite IH, set_add_In. intuition auto.
Qed.

Lemma fold_set_add_NoDup (ms : list loc) :
  forall s, NoDup s -> NoDup (fold_left set_add ms s).
Proof.
  induction ms as [|m ms IH]; intros s H; simpl.
  - exact H.
  - apply IH, set_add_NoDup, H.
Qed.

Lemma onLoad_materials_spec (gltf : GLTF) :
  onLoad_materials gltf = fold_left set_add (mesh_materials (gltf_scene gltf)) [].
Proof.
  unfold onLoad_materials. rewrite onLoad_traversed_spec. cbn [snd].
  rewrite collect_set. reflexivity.
Qed.

Lemma onLoad_materials_In (gltf : GLTF) (l : loc) :
  In l (onLoad_materials gltf) <-> In l (mesh_materials (gltf_scene gltf)).
Proof.
  rewrite onLoad_materials_spec, fold_set_add_In. simpl. tauto.
Qed.

Lemma onLoad_materials_NoDup (gltf : GLTF) : NoDup (onLoad_materials gltf).
Proof.
  rewrite onLoad_materials_spec. apply fold_set_add_NoDup. constructor.
Qed.

(** The traversal touches the colour of a material and nothing else. *)
Lemma collect_store (ms : list loc) :
  forall (acc : MaterialStore * JSSet) (l : loc),
    metalness (fst (fold_left collect ms acc) l) = metalness (fst acc l) /\
    roughness (fst (fold_left collect ms acc) l) = roughness (fst acc l) /\
    wireframe (fst (fold_left collect ms acc) l) = wireframe (fst acc l).
Proof.
  induction ms as [|m ms IH]; intros acc l; simpl.
  - auto.
  - destruct (IH (collect acc m) l) as (H1 & H2 & H3).
    rewrite H1, H2, H3. unfold collect; cbn [fst].
    destruct (color (fst acc m)); [auto|].
    unfold store_set. destruct (Nat.eqb l m) eqn:E; [|auto].
    apply Nat.eqb_eq in E. subst. auto.
Qed.

Lemma onLoad_store_metalness (gltf : GLTF) (l : loc) :
  metalness (onLoad_store gltf l) = metalness (gltf_materials gltf l).
Proof.
  unfold onLoad_store. rewrite onLoad_traversed_spec. cbn [snd].
  apply (collect_store _ (gltf_materials gltf, []) l).
Qed.

Lemma onLoad_store_roughness (gltf : GLTF) (l : loc) :
  roughness (onLoad_store gltf l) = roughness (gltf_materials gltf l).
Proof.
  unfold onLoad_store. rewrite onLoad_traversed_spec. cbn [snd].
  apply (collect_store _ (gltf_materials gltf, []) l).
Qed.

(** Every collected material has a colour when the folders are built, so
    [Color_getHex] is only ever applied to a colour that is there. *)
Lemma collect_color (ms : list loc) :
  forall (acc : MaterialStore * JSSet) (l : loc),
    In l ms \/ color (fst acc l) <> None ->
    color (fst (fold_left collect ms acc) l) <> None.
Proof.
  induction ms as [|m ms IH]; intros acc l H; simpl.
  - destruct H as [[]|H]; exact H.
  - apply IH. destruct H as [[H|H]|H].
    + subst. right. unfold collect; cbn [fst].
      destruct (color (fst acc l)) eqn:E; [rewrite E; discriminate|].
      unfold store_set. rewrite Nat.eqb_refl. discriminate.
    + left. exact H.
    + right. unfold collect; cbn [fst].
      destruct (color (fst acc m)) eqn:E; [exact H|].
      unfold store_set. destruct (Nat.eqb l m); [discriminate | exact H].
Qed.

Lemma onLoad_visit_color (gltf : GLTF) (l : loc) :
  In l (onLoad_materials gltf) -> color (onLoad_store gltf l) <> None.
Proof.
  intros H. apply onLoad_materials_In in H.
  unfold onLoad_store. rewrite onLoad_traversed_spec. cbn [snd].
  apply collect_color. left. exact H.
Qed.

(** *** The material folders *)

Lemma section_of_matFolder (h : MaterialStore) (l m : loc) :
  section_of l (matFolder h m) = Nat.eqb m l.
Proof.
  unfold section_of, matFolder.
  destruct (metalness (h m)), (roughness (h m)); simpl;
    destruct (Nat.eqb m l); reflexivity.
Qed.

Lemma section_of_modelFolder (l : loc) : section_of l modelFolder = false.
Proof. reflexivity. Qed.

Lemma filter_section_NoDup (h : MaterialStore) (l : loc) (ms : list loc) :
  NoDup ms -> In l ms ->
  List.length (filter (section_of l) (map (matFolder h) ms)) = 1%nat.
Proof.
  induction 1 as [|m ms Hm Hs IH]; intros Hin; [destruct Hin|].
  cbn [map filter]. rewrite section_of_matFolder.
  destruct (Nat.eqb m l) eqn:E.
  - apply Nat.eqb_eq in E. subst. cbn [List.length]. f_equal.
    clear IH Hs Hin. induction ms as [|x ms IH]; [reflexivity|].
    cbn [map filter]. rewrite section_of_matFolder.
    destruct (Nat.eqb x l) eqn:E.
    + apply Nat.eqb_eq in E. subst. exfalso. apply Hm. left. reflexivity.
    + apply IH. intros K. apply Hm. right. exact K.
  - apply IH. destruct Hin as [K|K]; [|exact K].
    subst. rewrite Nat.eqb_refl in E. discriminate.
Qed.

(** C3.  The success callback appends its folders to the panel, and among
    them every material referred to by a mesh of the loaded object has
    exactly one section, however many meshes refer to it. *)
Theorem C3_one_section_per_material (gltf : GLTF) (s : State) (l : loc) :
  In l (mesh_materials (gltf_scene gltf)) ->
  gui (onLoad gltf s) = gui s ++ onLoad_folders gltf /\
  List.length (filter (section_of l) (onLoad_folders gltf)) = 1%nat.
Proof.
  intros H. rewrite onLoad_fields. cbn [gui]. split; [reflexivity|].
  unfold onLoad_folders. rewrite filter_app, length_app.
  cbn [filter]. rewrite section_of_modelFolder. cbn [List.length].
  rewrite Nat.add_0_r. apply filter_section_NoDup.
  - apply onLoad_materials_NoDup.
  - apply onLoad_materials_In. exact H.
Qed.

Lemma has_control_metalness (h : MaterialStore) (l : loc) :
  has_control "metalness" (matFolder h l) =
  match metalness (h l) with Some _ => true | None => false end.
Proof.
  unfold has_control, matFolder.
  destruct (metalness (h l)), (roughness (h l)); reflexivity.
Qed.

Lemma has_control_roughness (h : MaterialStore) (l : loc) :
  has_control "roughness" (matFolder h l) =
  match roughness (h l) with Some _ => true | None => false end.
Proof.
  unfold has_control, matFolder.
  destruct (metalness (h l)), (roughness (h l)); reflexivity.
Qed.

Lemma section_in_onLoad_folders (gltf : GLTF) (l : loc) (f : Folder) :
  In f (onLoad_folders gltf) -> section_of l f = true ->
  f = matFolder (onLoad_store gltf) l /\ In l (onLoad_materials gltf).
Proof.
  unfold onLoad_folders. rewrite in_app_iff, in_map_iff.
  intros [(m & Hf & Hm)|[Hf|[]]] Hs; subst f.
  - rewrite section_of_matFolder in Hs. apply Nat.eqb_eq in Hs. subst m.
    split; [reflexivity | exact Hm].
  - rewrite section_of_modelFolder in Hs. discriminate.
Qed.

Lemma matFolder_in_onLoad_folders (gltf : GLTF) (l : loc) :
  In l (mesh_materials (gltf_scene gltf)) ->
  In (matFolder (onLoad_store gltf) l) (onLoad_folders gltf).
Proof.
  intros H. unfold onLoad_folders. apply in_or_app. left.
  apply in_map. apply onLoad_materials_In. exact H.
Qed.

(** C4.  Every material of a mesh of the loaded object has its section in
    the panel, and only one.  That section has a metalness control exactly
    when the material, as loaded, has a metalness property, and a roughness
    control exactly when it has a roughness property. *)
Theorem C4_metalness_roughness_controls (gltf : GLTF) (l : loc) :
  In l (mesh_materials (gltf_scene gltf)) ->
  exists f,
    In f (onLoad_folders gltf) /\ section_of l f = true /\
    (forall f', In f' (onLoad_folders gltf) -> section_of l f' = true ->
                f' = f) /\
    (has_control "metalness" f = true <->
     metalness (gltf_materials gltf l) <> None) /\
    (has_control "roughness" f = true <->
     roughness (gltf_materials gltf l) <> None).
Proof.
  intros H. exists (matFolder (onLoad_store gltf) l).
  split; [apply matFolder_in_onLoad_folders, H|].
  split; [rewrite section_of_matFolder; apply Nat.eqb_refl|].
  split; [intros f' Hf Hs; apply (section_in_onLoad_folders gltf l f' Hf Hs)|].
  rewrite has_control_metalness, has_control_roughness.
  rewrite onLoad_store_metalness, onLoad_store_roughness.
  destruct (metalness (gltf_materials gltf l)),
    (roughness (gltf_materials gltf l));
    repeat split; intros; congruence.
Qed.

(** *** The transform and light controls *)

Lemma clamp_inside (v mn mx : Q) : mn <= v -> v <= mx -> clamp v mn mx = v.
Proof.
  intros H1 H2. unfold clamp. rewrite !Qltb_false by assumption. reflexivity.
Qed.

Lemma nth_controller_app (g1 g2 : list Folder) (c : nat) :
  nth_controller (g1 ++ g2) (List.length g1) c = nth_controller g2 0 c.
Proof.
  unfold nth_controller. rewrite nth_error_app2 by apply Nat.le_refl.
  rewrite Nat.sub_diag. reflexivity.
Qed.

Lemma modelFolder_index (gltf : GLTF) (s : State) (c : nat) :
  nth_controller (gui (onLoad gltf s))
    (List.length (gui s) + List.length (onLoad_materials gltf)) c =
  nth_error (controllers modelFolder) c.
Proof.
  rewrite onLoad_fields. cbn [gui]. unfold onLoad_folders.
  rewrite app_assoc.
  rewrite <- (length_map (matFolder (onLoad_store gltf))), <- length_app.
  rewrite nth_controller_app. reflexivity.
Qed.

(** C5.  After the success callback, the Model folder's first control is
    the scale control with range [0.1, 2]; for [s] in that range, its
    callback applied to [s], and likewise the panel input [s] on that
    control, leave the loaded root with scale [(s, s, s)]. *)
Theorem C5_uniform_scale (gltf : GLTF) (st : State) (s : Q) :
  1 # 10 <= s -> s <= 2 ->
  let s1 := onLoad gltf st in
  let k := (List.length (gui st) + List.length (onLoad_materials gltf))%nat in
  nth_controller (gui s1) k 0 =
    Some (NumberController "scale" "scale" (1 # 10) 2 1 setScale) /\
  (exists ld,
      loaded (invokeNumber setScale s s1) = Some ld /\
      scale (data_of (object ld)) = vec3 s s s) /\
  (exists ld,
      loaded (step s1 (NumberInput k 0 s)) = Some ld /\
      scale (data_of (object ld)) = vec3 s s s).
Proof.
  intros Hlo Hhi s1 k.
  assert (Hc : nth_controller (gui s1) k 0 =
               Some (NumberController "scale" "scale" (1 # 10) 2 1 setScale)).
  { unfold s1, k. rewrite modelFolder_index. reflexivity. }
  split; [exact Hc|]. split.
  - unfold s1. rewrite onLoad_fields. cbn.
    destruct (onLoad_object gltf) as [d cs]. eexists. split; reflexivity.
  - cbn [step]. rewrite Hc. cbv zeta. rewrite (clamp_inside s _ _ Hlo Hhi).
    unfold s1. rewrite onLoad_fields. cbn.
    destruct (onLoad_object gltf) as [d cs]. eexists. split; reflexivity.
Qed.

(** C6.  Each light has its control in the Lighting folder; the callback of
    the control of light [l], applied to any [v], sets the intensity of [l]
    to [v], keeps the three other lights as they are, intensity included,
    and changes nothing else in the state. *)
Theorem C6_light_intensity (l : LightId) (v : Q) (s : State) :
  (exists p n x,
      nth_error (controllers lightingFolder) (light_index l) =
      Some (NumberController p n 0 1 x (setIntensity l))) /\
  (forall l',
      intensity (lights (invokeNumber (setIntensity l) v s) l') =
      if LightId_eqb l' l then v else intensity (lights s l')) /\
  (forall l',
      lights (invokeNumber (setIntensity l) v s) l' =
      if LightId_eqb l' l then set_intensity (lights s l') v
      else lights s l') /\
  invokeNumber (setIntensity l) v s =
    with_lights s (lights (invokeNumber (setIntensity l) v s)).
Proof.
  split; [destruct l; do 3 eexists; reflexivity|].
  cbn [invokeNumber with_lights lights]. repeat split.
  intros l'. destruct (LightId_eqb l' l); reflexivity.
Qed.

(** *** Writes to a material *)

Lemma on_material_loaded (l : loc) (f : Material -> Material) (s : State)
    (ld : Loaded) :
  loaded s = Some ld ->
  loaded (on_material l f s) =
  Some (mkLoaded (object ld) (store_set (store ld) l (f (store ld l)))).
Proof. intros H. unfold on_material. cbn. rewrite H. reflexivity. Qed.

Lemma store_set_same (h : MaterialStore) (l : loc) (m : Material) :
  store_set h l m l = m.
Proof. unfold store_set. rewrite Nat.eqb_refl. reflexivity. Qed.

Lemma store_set_other (h : MaterialStore) (l l' : loc) (m : Material) :
  l' <> l -> store_set h l m l' = h l'.
Proof.
  intros H. unfold store_set. apply Nat.eqb_neq in H. rewrite H. reflexivity.
Qed.

Lemma matFolder_callbacks (h : MaterialStore) (l : loc) (c : Controller) :
  In c (controllers (matFolder h l)) -> controller_material c = Some l.
Proof.
  unfold matFolder. cbn [controllers].
  destruct (metalness (h l)), (roughness (h l)); simpl;
    intuition (subst; reflexivity).
Qed.

Lemma on_material_written (l : loc) (f : Material -> Material)
    (P : Material -> Prop) (s : State) (ld : Loaded) :
  loaded s = Some ld -> (forall m, P (f m)) ->
  written l P s (on_material l f s).
Proof.
  intros H HP. exists ld. eexists. split; [exact H|].
  split; [apply on_material_loaded; exact H|]. cbn [object store].
  split; [reflexivity|]. split; [rewrite store_set_same; apply HP|].
  split; [|split].
  - intros d m _ _. split.
    + intros ->. rewrite store_set_same. apply HP.
    + intros Hm. apply store_set_other. exact Hm.
  - intros l' Hl. apply store_set_other. exact Hl.
  - reflexivity.
Qed.

(** C9.  The callbacks of the section of material [l] all write to [l].
    Each of them (colour, metalness, roughness, wireframe) changes that one
    material object: every mesh that refers to it finds the new value,
    every other material object and the scene's children stay as they
    were. *)
Theorem C9_material_writes (s : State) (ld : Loaded) (l : loc)
    (h : MaterialStore) :
  loaded s = Some ld ->
  (forall c, In c (controllers (matFolder h l)) ->
             controller_material c = Some l) /\
  (forall hex,
      written l (fun m => color m = Some (Color_setHex hex)) s
        (invokeColor (setHex l) hex s)) /\
  (forall v,
      written l (fun m => metalness m = Some v) s
        (invokeNumber (setMetalness l) v s)) /\
  (forall v,
      written l (fun m => roughness m = Some v) s
        (invokeNumber (setRoughness l) v s)) /\
  (forall b,
      written l (fun m => wireframe m = Some b) s
        (invokeBoolean (setWireframe l) b s)).
Proof.
  intros H. split; [apply matFolder_callbacks|].
  repeat split; intros x; cbn [invokeColor invokeNumber invokeBoolean];
    apply (on_material_written l _ _ s ld H); reflexivity.
Qed.

(** *** What a step of the host leaves alone *)

Lemma invokeNumber_shell (cb : NumberCallback) (v : Q) (s : State) :
  scene_children (invokeNumber cb v s) = scene_children s /\
  renderer (invokeNumber cb v s) = renderer s /\
  console (invokeNumber cb v s) = console s /\
  load_requests (invokeNumber cb v s) = load_requests s /\
  frame_requested (invokeNumber cb v s) = frame_requested s /\
  frames_rendered (invokeNumber cb v s) = frames_rendered s /\
  gui (invokeNumber cb v s) = gui s /\
  (loaded s = None -> loaded (invokeNumber cb v s) = None).
Proof.
  destruct cb; cbn; repeat split; try (intros ->; reflexivity); auto.
Qed.

Lemma invokeColor_shell (cb : ColorCallback) (v : Z) (s : State) :
  scene_children (invokeColor cb v s) = scene_children s /\
  renderer (invokeColor cb v s) = renderer s /\
  console (invokeColor cb v s) = console s /\
  load_requests (invokeColor cb v s) = load_requests s /\
  frame_requested (invokeColor cb v s) = frame_requested s /\
  frames_rendered (invokeColor cb v s) = frames_rendered s /\
  gui (invokeColor cb v s) = gui s /\
  (loaded s = None -> loaded (invokeColor cb v s) = None).
Proof.
  destruct cb; cbn; repeat split; try (intros ->; reflexivity); auto.
Qed.

Lemma invokeBoolean_shell (cb : BooleanCallback) (v : bool) (s : State) :
  scene_children (invokeBoolean cb v s) = scene_children s /\
  renderer (invokeBoolean cb v s) = renderer s /\
  console (invokeBoolean cb v s) = console s /\
  load_requests (invokeBoolean cb v s) = load_requests s /\
  frame_requested (invokeBoolean cb v s) = frame_requested s /\
  frames_rendered (invokeBoolean cb v s) = frames_rendered s /\
  gui (invokeBoolean cb v s) = gui s /\
  (loaded s = None -> loaded (invokeBoolean cb v s) = None).
Proof.
  destruct cb; cbn; repeat split; try (intros ->; reflexivity); auto.
Qed.

Lemma update_nth_length {A : Type} (n : nat) (x : A) (l : list A) :
  List.length (update_nth n x l) = List.length l.
Proof.
  revert n. induction l as [|y l IH]; intros [|n]; simpl; auto.
Qed.

Lemma set_controller_titles (g : list Folder) (f c : nat) (x : Controller) :
  map title (set_controller g f c x) = map title g.
Proof.
  unfold set_controller. destruct (nth_error g f) as [fo|] eqn:E; [|reflexivity].
  revert f E. induction g as [|y g IH]; intros [|f] E; simpl in *;
    try discriminate.
  - injection E as ->. reflexivity.
  - f_equal. apply IH. exact E.
Qed.

(** The shadow map settings of the renderer survive every step. *)
Lemma step_shadowMap (s : State) (e : Event) :
  shadowMap_enabled (renderer (step s e)) = shadowMap_enabled (renderer s) /\
  shadowMap_type (renderer (step s e)) = shadowMap_type (renderer s).
Proof.
  destruct e; cbn [step].
  - rewrite onLoad_fields. split; reflexivity.
  - split; reflexivity.
  - split; reflexivity.
  - destruct (frame_requested s); split; reflexivity.
  - destruct (resize_listener s); split; reflexivity.
  - handler_cases; try (split; reflexivity).
    match goal with
    | |- context [invokeNumber ?cb ?v ?t] =>
        destruct (invokeNumber_shell cb v t) as (_ & -> & _)
    end. split; reflexivity.
  - handler_cases; try (split; reflexivity).
    match goal with
    | |- context [invokeColor ?cb ?v ?t] =>
        destruct (invokeColor_shell cb v t) as (_ & -> & _)
    end. split; reflexivity.
  - handler_cases; try (split; reflexivity).
    match goal with
    | |- context [invokeBoolean ?cb ?v ?t] =>
        destruct (invokeBoolean_shell cb v t) as (_ & -> & _)
    end. split; reflexivity.
Qed.

Lemma step_scene_children (s : State) (e : Event) :
  is_success e = false -> scene_children (step s e) = scene_children s.
Proof.
  destruct e; cbn [step is_success]; intros H; try discriminate;
    try reflexivity.
  - destruct (frame_requested s); reflexivity.
  - destruct (resize_listener s); reflexivity.
  - handler_cases; try reflexivity.
    match goal with
    | |- context [invokeNumber ?cb ?v ?t] =>
        destruct (invokeNumber_shell cb v t) as (-> & _)
    end. reflexivity.
  - handler_cases; try reflexivity.
    match goal with
    | |- context [invokeColor ?cb ?v ?t] =>
        destruct (invokeColor_shell cb v t) as (-> & _)
    end. reflexivity.
  - handler_cases; try reflexivity.
    match goal with
    | |- context [invokeBoolean ?cb ?v ?t] =>
        destruct (invokeBoolean_shell cb v t) as (-> & _)
    end. reflexivity.
Qed.

Lemma step_preload (s : State) (e : Event) :
  is_success e = false -> preload s -> preload (step s e).
Proof.
  intros He (H1 & H2 & H3 & H4 & H5). unfold preload.
  rewrite (step_scene_children s e He).
  split; [exact H1|].
  destruct e; cbn [step is_success] in *; try discriminate.
  - auto.
  - auto.
  - rewrite H4. cbn. auto.
  - destruct (resize_listener s); cbn; auto.
  - handler_cases; auto.
    match goal with
    | |- context [invokeNumber ?cb ?v ?t] =>
        destruct (invokeNumber_shell cb v t)
          as (_ & _ & _ & -> & -> & _ & -> & Hl)
    end.
    cbn [with_gui loaded load_requests frame_requested gui] in *.
    rewrite set_controller_titles. auto.
  - handler_cases; auto.
    match goal with
    | |- context [invokeColor ?cb ?v ?t] =>
        destruct (invokeColor_shell cb v t)
          as (_ & _ & _ & -> & -> & _ & -> & Hl)
    end.
    cbn [with_gui loaded load_requests frame_requested gui] in *.
    rewrite set_controller_titles. auto.
  - handler_cases; auto.
    match goal with
    | |- context [invokeBoolean ?cb ?v ?t] =>
        destruct (invokeBoolean_shell cb v t)
          as (_ & _ & _ & -> & -> & _ & -> & Hl)
    end.
    cbn [with_gui loaded load_requests frame_requested gui] in *.
    rewrite set_controller_titles. auto.
Qed.

Lemma run_app (s : State) (a b : list Event) :
  run s (a ++ b) = run (run s a) b.
Proof. apply fold_left_app. Qed.

Lemma run_preload (events : list Event) :
  forall s,
    forallb (fun e => negb (is_success e)) events = true ->
    preload s -> preload (run s events).
Proof.
  induction events as [|e events IH]; intros s H Hs; [exact Hs|].
  cbn [forallb] in H. apply andb_true_iff in H. destruct H as [He H].
  apply negb_true_iff in He. cbn [run fold_left].
  apply IH; [exact H|]. apply step_preload; assumption.
Qed.

Lemma main_preload (w h : Z) : preload (main w h).
Proof. unfold preload. repeat split. Qed.

(** The render loop: a frame is always pending, and every frame the host
    delivers is drawn. *)
Lemma step_frames (s : State) (e : Event) :
  frame_requested s = true ->
  frame_requested (step s e) = true /\
  frames_rendered (step s e) =
    (frames_rendered s + if is_frame e then 1 else 0)%nat.
Proof.
  intros H. destruct e; cbn [step is_frame].
  - rewrite onLoad_fields. cbn. rewrite Nat.add_0_r. auto.
  - cbn. rewrite Nat.add_0_r. auto.
  - cbn. rewrite Nat.add_0_r. auto.
  - rewrite H. cbn. rewrite Nat.add_1_r. auto.
  - destruct (resize_listener s); cbn; rewrite Nat.add_0_r; auto.
  - rewrite Nat.add_0_r. handler_cases; auto.
    match goal with
    | |- context [invokeNumber ?cb ?v ?t] =>
        destruct (invokeNumber_shell cb v t)
          as (_ & _ & _ & _ & -> & -> & _)
    end. auto.
  - rewrite Nat.add_0_r. handler_cases; auto.
    match goal with
    | |- context [invokeColor ?cb ?v ?t] =>
        destruct (invokeColor_shell cb v t)
          as (_ & _ & _ & _ & -> & -> & _)
    end. auto.
  - rewrite Nat.add_0_r. handler_cases; auto.
    match goal with
    | |- context [invokeBoolean ?cb ?v ?t] =>
        destruct (invokeBoolean_shell cb v t)
          as (_ & _ & _ & _ & -> & -> & _)
    end. auto.
Qed.

Lemma run_frames (events : list Event) :
  forall s,
    frame_requested s = true ->
    frame_requested (run s events) = true /\
    frames_rendered (run s events) =
      (frames_rendered s + List.length (filter is_frame events))%nat.
Proof.
  induction events as [|e events IH]; intros s H; cbn [run fold_left].
  - cbn. rewrite Nat.add_0_r. auto.
  - destruct (step_frames s e H) as [H1 H2].
    destruct (IH (step s e) H1) as [K1 K2]. split; [exact K1|].
    unfold run in K2. rewrite K2, H2. cbn [filter].
    destruct (is_frame e); cbn [List.length]; lia.
Qed.

(** The error log grows by the failure reported and by nothing else. *)
Lemma step_errors (s : State) (e : Event) :
  filter is_error (console (step s e)) =
  filter is_error (console s) ++ logged_error e.
Proof.
  destruct e; cbn [step logged_error]; rewrite ?app_nil_r.
  - rewrite onLoad_fields. reflexivity.
  - cbn. rewrite filter_app. cbn. apply app_nil_r.
  - cbn. rewrite filter_app. reflexivity.
  - destruct (frame_requested s); reflexivity.
  - destruct (resize_listener s); reflexivity.
  - handler_cases; auto.
    match goal with
    | |- context [invokeNumber ?cb ?v ?t] =>
        destruct (invokeNumber_shell cb v t) as (_ & _ & -> & _)
    end. reflexivity.
  - handler_cases; auto.
    match goal with
    | |- context [invokeColor ?cb ?v ?t] =>
        destruct (invokeColor_shell cb v t) as (_ & _ & -> & _)
    end. reflexivity.
  - handler_cases; auto.
    match goal with
    | |- context [invokeBoolean ?cb ?v ?t] =>
        destruct (invokeBoolean_shell cb v t) as (_ & _ & -> & _)
    end. reflexivity.
Qed.

Lemma run_errors (events : list Event) :
  forall s,
    forallb (fun e => negb (is_completion e)) events = true ->
    filter is_error (console (run s events)) = filter is_error (console s).
Proof.
  induction events as [|e events IH]; intros s H; [reflexivity|].
  cbn [forallb] in H. apply andb_true_iff in H. destruct H as [He H].
  cbn [run fold_left]. unfold run in IH. rewrite (IH _ H), step_errors.
  destruct e; try discriminate; apply app_nil_r.
Qed.

Lemma no_completion_no_success (events : list Event) :
  forallb (fun e => negb (is_completion e)) events = true ->
  forallb (fun e => negb (is_success e)) events = true.
Proof.
  induction events as [|e events IH]; [reflexivity|]. cbn [forallb].
  rewrite !andb_true_iff. intros [He H]. split; [|apply IH, H].
  destruct e; auto.
Qed.

Lemma run_scene_children (events : list Event) :
  forall s,
    forallb (fun e => negb (is_success e)) events = true ->
    scene_children (run s events) = scene_children s.
Proof.
  induction events as [|e events IH]; intros s H; [reflexivity|].
  cbn [forallb] in H. apply andb_true_iff in H. destruct H as [He H].
  apply negb_true_iff in He. cbn [run fold_left]. unfold run in IH.
  rewrite (IH _ H). apply step_scene_children, He.
Qed.

(** C7.  As long as the load has not succeeded the scene holds no ground
    plane.  The success callback adds exactly one, and it is the only one
    afterwards: a 50 by 50 plane, turned by minus a quarter turn about x,
    at y = -2, receiving shadows and not casting any. *)
Theorem C7_ground_plane (w h : Z) (pre post : list Event) (gltf : GLTF) :
  forallb (fun e => negb (is_success e)) pre = true ->
  forallb (fun e => negb (is_success e)) post = true ->
  grounds (run (main w h) pre) = [] /\
  grounds (step (run (main w h) pre) (LoadSuccess gltf)) =
    [ChildGround ground] /\
  grounds (run (main w h) (pre ++ LoadSuccess gltf :: post)) =
    [ChildGround ground] /\
  ground_geometry ground = mkPlane 50 50 /\
  ground_rotation ground = vec3 (- Math_PI / 2) 0 0 /\
  ground_position ground = vec3 0 (-2) 0 /\
  ground_receiveShadow ground = true /\
  ground_castShadow ground = false.
Proof.
  intros Hpre Hpost.
  assert (H0 : scene_children (run (main w h) pre) = lights_only).
  { rewrite run_scene_children by exact Hpre. reflexivity. }
  assert (H1 : grounds (step (run (main w h) pre) (LoadSuccess gltf)) =
               [ChildGround ground]).
  { unfold grounds. cbn [step]. rewrite onLoad_fields. cbn [scene_children].
    rewrite H0. reflexivity. }
  split; [unfold grounds; rewrite H0; reflexivity|].
  split; [exact H1|].
  split; [|repeat split].
  rewrite run_app. cbn [run fold_left]. fold (run (main w h) pre).
  unfold grounds in *.
  change (fold_left step post ?s) with (run s post).
  rewrite run_scene_children by exact Hpost. exact H1.
Qed.

(** C8.  When the load fails, the error callback appends the error to the
    log and changes nothing else.  Whatever other events precede and
    follow, the scene holds the four lights only, no object is loaded, the
    panel has its Lighting folder only, the one load request issued by the
    script remains the only one, the log holds that one error, and the
    render loop goes on: a frame is pending and every frame delivered has
    been drawn. *)
Theorem C8_load_failure (w h : Z) (pre post : list Event) (error : string) :
  forallb (fun e => negb (is_completion e)) pre = true ->
  forallb (fun e => negb (is_completion e)) post = true ->
  let s0 := run (main w h) pre in
  let s1 := step s0 (LoadError error) in
  let s2 := run s1 post in
  s1 = with_console s0 (console s0 ++ [console_error error]) /\
  scene_children s2 = lights_only /\
  filter is_ground (scene_children s2) = [] /\
  filter is_object (scene_children s2) = [] /\
  loaded s2 = None /\
  map title (gui s2) = ["Lighting"%string] /\
  load_requests s2 = ["assets/House_OKC.glb"%string] /\
  filter is_error (console s2) = [console_error error] /\
  frame_requested s2 = true /\
  frames_rendered s2 =
    (1 + List.length (filter is_frame (pre ++ post)))%nat.
Proof.
  intros Hpre Hpost s0 s1 s2.
  assert (P0 : preload s0).
  { apply run_preload; [apply no_completion_no_success, Hpre|].
    apply main_preload. }
  assert (P1 : preload s1) by (apply step_preload; [reflexivity | exact P0]).
  assert (P2 : preload s2).
  { apply run_preload; [apply no_completion_no_success, Hpost | exact P1]. }
  destruct P2 as (C & L & R & F & G).
  split; [reflexivity|]. rewrite C.
  repeat (split; [first [assumption | reflexivity]|]).
  split.
  - unfold s2. rewrite run_errors by exact Hpost.
    unfold s1. rewrite step_errors. unfold s0.
    rewrite run_errors by exact Hpre. reflexivity.
  - split; [exact F|].
    destruct (run_frames pre (main w h) eq_refl) as [F0 N0].
    destruct (step_frames s0 (LoadError error) F0) as [F1 N1].
    destruct (run_frames post s1 F1) as [_ N2].
    unfold s2. rewrite N2. unfold s1. rewrite N1. unfold s0. rewrite N0.
    rewrite filter_app, length_app. cbn. lia.
Qed.

(** C10.  The script leaves the renderer with shadow mapping enabled and
    the soft shadow map type, and no event handled afterwards changes
    either setting; the main light casts shadows from the start. *)
Theorem C10_shadow_mapping (w h : Z) (events : list Event) :
  shadowMap_enabled (renderer (main w h)) = true /\
  shadowMap_type (renderer (main w h)) = PCFSoftShadowMap /\
  light_castShadow (lights (main w h) mainLight) = true /\
  shadowMap_enabled (renderer (run (main w h) events)) = true /\
  shadowMap_type (renderer (run (main w h) events)) = PCFSoftShadowMap.
Proof.
  repeat (split; [reflexivity|]).
  generalize (main w h) (eq_refl : shadowMap_enabled (renderer (main w h)) = true)
    (eq_refl : shadowMap_type (renderer (main w h)) = PCFSoftShadowMap).
  induction events as [|e events IH]; intros s E T; [auto|].
  cbn [run fold_left]. destruct (step_shadowMap s e) as [E' T'].
  apply IH; congruence.
Qed.

(** ** Beyond the claims: the remaining handlers *)

(** *** The rig: controller settings and light fixtures *)

Lemma invokeNumber_rig (cb : NumberCallback) (v : Q) (s : State) :
  controls (invokeNumber cb v s) = controls s /\
  resize_listener (invokeNumber cb v s) = resize_listener s /\
  camera (invokeNumber cb v s) = camera s /\
  forall l,
    light_fixture (lights (invokeNumber cb v s) l) =
    light_fixture (lights s l).
Proof.
  destruct cb; cbn; repeat split.
  intros l'. destruct (LightId_eqb l' l); reflexivity.
Qed.

Lemma step_rig (s : State) (e : Event) :
  controls (step s e) = controls s /\
  resize_listener (step s e) = resize_listener s /\
  forall l, light_fixture (lights (step s e) l) = light_fixture (lights s l).
Proof.
  destruct e; cbn [step].
  - rewrite onLoad_fields. repeat split.
  - repeat split.
  - repeat split.
  - destruct (frame_requested s); repeat split.
  - destruct (resize_listener s) eqn:E; repeat split; cbn; auto.
  - handler_cases; try (repeat split; fail).
    match goal with
    | |- context [invokeNumber ?cb ?v ?t] =>
        destruct (invokeNumber_rig cb v t) as (-> & -> & _ & H)
    end.
    repeat split. exact H.
  - handler_cases; try (repeat split; fail).
    match goal with
    | |- context [invokeColor ?cb _ _] => destruct cb
    end. repeat split.
  - handler_cases; try (repeat split; fail).
    match goal with
    | |- context [invokeBoolean ?cb _ _] => destruct cb
    end. repeat split.
Qed.

Lemma run_rig (events : list Event) :
  forall s,
    controls (run s events) = controls s /\
    resize_listener (run s events) = resize_listener s /\
    forall l, light_fixture (lights (run s events) l) = light_fixture (lights s l).
Proof.
  induction events as [|e events IH]; intros s; [repeat split|].
  cbn [run fold_left]. unfold run in IH.
  destruct (IH (step s e)) as (C & R & L).
  destruct (step_rig s e) as (C' & R' & L').
  rewrite C, R. repeat split; try assumption.
  intros l. rewrite L. apply L'.
Qed.

(** Whatever events the script handles, the orbit controller keeps the
    settings of lines 21-33 (damping on, polar angle within [0, pi/2],
    distance within [2, 20], zoom on at speed 0.5), every light keeps its
    kind, colour and position, and the main light stays the only one that
    casts shadows. *)
Theorem rig_is_fixed (w h : Z) (events : list Event) (l : LightId) :
  controls (run (main w h) events) =
    mkControls true 0 (Math_PI / 2) 2 20 true (1 # 2) /\
  light_fixture (lights (run (main w h) events) l) =
    light_fixture (initialLights l) /\
  light_castShadow (lights (run (main w h) events) l) =
    LightId_eqb l mainLight.
Proof.
  destruct (run_rig events (main w h)) as (C & _ & L).
  split; [rewrite C; reflexivity|].
  assert (H : light_fixture (lights (run (main w h) events) l) =
              light_fixture (initialLights l)) by (rewrite L; reflexivity).
  split; [exact H|].
  unfold light_fixture in H. injection H as _ _ _ H. rewrite H.
  destruct l; reflexivity.
Qed.

(** *** Resizing (lines 206-210) *)

(** In every state the script can reach, a resize to a window of inner
    size [W] by [H] (with [H] not zero) sets the camera's aspect and the
    aspect of its projection to [W / H] and the renderer's size to
    [(W, H)]; the camera's position and other parameters, the scene, the
    loaded asset, the lights and the panel are untouched. *)
Theorem resize_viewport (w h : Z) (events : list Event) (W H : Z) :
  H <> 0%Z ->
  let s := run (main w h) events in
  let s' := step s (WindowResize W H) in
  aspect (camera s') = inject_Z W / inject_Z H /\
  projection_aspect (camera s') = inject_Z W / inject_Z H /\
  renderer_width (renderer s') = W /\
  renderer_height (renderer s') = H /\
  camera_position (camera s') = camera_position (camera s) /\
  fov (camera s') = fov (camera s) /\
  near (camera s') = near (camera s) /\
  far (camera s') = far (camera s) /\
  scene_children s' = scene_children s /\
  loaded s' = loaded s /\
  lights s' = lights s /\
  gui s' = gui s.
Proof.
  intros _ s s'. unfold s'. cbn [step].
  destruct (run_rig events (main w h)) as (_ & R & _).
  fold s in R. rewrite R. cbn. repeat split.
Qed.

(** Of two resizes in a row only the second one shows. *)
Theorem resize_last_wins (s : State) (W1 H1 W2 H2 : Z) :
  step (step s (WindowResize W1 H1)) (WindowResize W2 H2) =
  step s (WindowResize W2 H2).
Proof.
  cbn [step]. destruct (resize_listener s) eqn:E.
  - cbn. rewrite E. reflexivity.
  - rewrite E. reflexivity.
Qed.

(** *** The transform controls (lines 166-177) *)

(** The three rotation callbacks, applied with [a], [b] and [c], leave the
    loaded root with the Euler angles [(a, b, c)] and change nothing else
    of the root, of its descendants or of the materials. *)
Theorem rotation_controls (s : State) (ld : Loaded) (a b c : Q) :
  loaded s = Some ld ->
  loaded
    (invokeNumber setRotationZ c
       (invokeNumber setRotationY b (invokeNumber setRotationX a s))) =
  Some
    (mkLoaded (on_root (fun d => set_rotation d (vec3 a b c)) (object ld))
       (store ld)).
Proof.
  intros H. cbn. rewrite H. cbn. destruct (object ld). reflexivity.
Qed.

(** The scale callback and the three rotation callbacks commute with one
    another: the order in which the four controls are moved does not
    matter. *)
Theorem transform_controls_commute (s : State) (u v : Q) :
  invokeNumber setScale u (invokeNumber setRotationX v s) =
    invokeNumber setRotationX v (invokeNumber setScale u s) /\
  invokeNumber setScale u (invokeNumber setRotationY v s) =
    invokeNumber setRotationY v (invokeNumber setScale u s) /\
  invokeNumber setScale u (invokeNumber setRotationZ v s) =
    invokeNumber setRotationZ v (invokeNumber setScale u s) /\
  invokeNumber setRotationX u (invokeNumber setRotationY v s) =
    invokeNumber setRotationY v (invokeNumber setRotationX u s) /\
  invokeNumber setRotationX u (invokeNumber setRotationZ v s) =
    invokeNumber setRotationZ v (invokeNumber setRotationX u s) /\
  invokeNumber setRotationY u (invokeNumber setRotationZ v s) =
    invokeNumber setRotationZ v (invokeNumber setRotationY u s).
Proof.
  unfold invokeNumber, on_object. cbn.
  destruct (loaded s) as [[[d cs] st]|]; cbn; repeat split.
Qed.

(** *** The render loop and the console over every run *)

(** Whatever events arrive, load success included, a frame is always
    requested and every animation frame delivered has been drawn: the
    count of drawn frames is the one drawn by the script's own call of
    [animate] plus the number of frames delivered. *)
Theorem render_loop_never_stops (w h : Z) (events : list Event) :
  frame_requested (run (main w h) events) = true /\
  frames_rendered (run (main w h) events) =
    (1 + List.length (filter is_frame events))%nat.
Proof. apply (run_frames events (main w h)). reflexivity. Qed.

Lemma step_console_length (s : State) (e : Event) :
  List.length (console (step s e)) =
  (List.length (console s) + if is_report e then 1 else 0)%nat.
Proof.
  destruct e; cbn [step is_report]; rewrite ?Nat.add_0_r.
  - rewrite onLoad_fields. reflexivity.
  - cbn. rewrite length_app. reflexivity.
  - cbn. rewrite length_app. reflexivity.
  - destruct (frame_requested s); reflexivity.
  - destruct (resize_listener s); reflexivity.
  - handler_cases; auto.
    match goal with
    | |- context [invokeNumber ?cb ?v ?t] =>
        destruct (invokeNumber_shell cb v t) as (_ & _ & -> & _)
    end. reflexivity.
  - handler_cases; auto.
    match goal with
    | |- context [invokeColor ?cb ?v ?t] =>
        destruct (invokeColor_shell cb v t) as (_ & _ & -> & _)
    end. reflexivity.
  - handler_cases; auto.
    match goal with
    | |- context [invokeBoolean ?cb ?v ?t] =>
        destruct (invokeBoolean_shell cb v t) as (_ & _ & -> & _)
    end. reflexivity.
Qed.

(** The console holds one line per progress event and per failure and
    nothing else; its error lines are exactly the failures delivered, in
    the order of their delivery. *)
Theorem console_reports (w h : Z) (events : list Event) :
  List.length (console (run (main w h) events)) =
    List.length (filter is_report events) /\
  filter is_error (console (run (main w h) events)) =
    flat_map logged_error events.
Proof.
  assert (G : forall evs s,
             List.length (console (run s evs)) =
               (List.length (console s) + List.length (filter is_report evs))%nat
             /\ filter is_error (console (run s evs)) =
                filter is_error (console s) ++ flat_map logged_error evs).
  { induction evs as [|e evs IH]; intros s; cbn [run fold_left].
    - cbn. rewrite Nat.add_0_r, app_nil_r. auto.
    - unfold run in IH. destruct (IH (step s e)) as [L E].
      rewrite L, E, step_console_length, step_errors.
      cbn [filter flat_map]. rewrite <- app_assoc. split; [|reflexivity].
      destruct (is_report e); cbn [List.length]; lia. }
  destruct (G events (main w h)) as [L E]. rewrite L, E. split; reflexivity.
Qed.


(** *** Before and after the load *)

Lemma preload_one_folder (s : State) :
  preload s -> forall f, (1 <= f)%nat -> nth_error (gui s) f = None.
Proof.
  intros (_ & _ & _ & _ & G) f Hf.
  destruct (gui s) as [|fo [|fo' g]]; try discriminate.
  destruct f as [|[|f]]; [lia | reflexivity | reflexivity].
Qed.

(** As long as the load has not succeeded, the panel has no control
    outside its Lighting folder: an input addressed to any other folder
    changes nothing at all. *)
Theorem no_controls_before_load (w h : Z) (events : list Event) (f c : nat) :
  forallb (fun e => negb (is_success e)) events = true ->
  (1 <= f)%nat ->
  let s := run (main w h) events in
  (forall v, step s (NumberInput f c v) = s) /\
  (forall v, step s (ColorInput f c v) = s) /\
  (forall v, step s (BooleanInput f c v) = s).
Proof.
  intros He Hf s.
  assert (P : preload s) by (apply run_preload; [exact He | apply main_preload]).
  pose proof (preload_one_folder s P f Hf) as N.
  repeat split; intros v; cbn [step]; unfold nth_controller; rewrite N;
    reflexivity.
Qed.

Lemma step_loaded_some (s : State) (e : Event) :
  loaded s <> None -> loaded (step s e) <> None.
Proof.
  intros H. destruct e; cbn [step].
  - rewrite onLoad_fields. discriminate.
  - exact H.
  - exact H.
  - destruct (frame_requested s); exact H.
  - destruct (resize_listener s); exact H.
  - handler_cases; auto.
    match goal with
    | |- context [invokeNumber ?cb _ _] => destruct cb
    end; cbn; destruct (loaded s); try discriminate; congruence.
  - handler_cases; auto.
    match goal with
    | |- context [invokeColor ?cb _ _] => destruct cb
    end; cbn; destruct (loaded s); try discriminate; congruence.
  - handler_cases; auto.
    match goal with
    | |- context [invokeBoolean ?cb _ _] => destruct cb
    end; cbn; destruct (loaded s); try discriminate; congruence.
Qed.

Lemma run_loaded_some (events : list Event) :
  forall s, loaded s <> None -> loaded (run s events) <> None.
Proof.
  induction events as [|e events IH]; intros s H; [exact H|].
  cbn [run fold_left]. apply IH, step_loaded_some, H.
Qed.

(** Before the load succeeds the scene holds the four lights and nothing
    is loaded.  The success callback leaves the centred root with its
    materials, and from then on the scene holds the four lights, the
    ground and the loaded root, in this order, whatever other events
    follow. *)
Theorem scene_after_load (w h : Z) (pre post : list Event) (gltf : GLTF) :
  forallb (fun e => negb (is_success e)) pre = true ->
  forallb (fun e => negb (is_success e)) post = true ->
  scene_children (run (main w h) pre) = lights_only /\
  loaded (run (main w h) pre) = None /\
  loaded (step (run (main w h) pre) (LoadSuccess gltf)) =
    Some (mkLoaded (onLoad_object gltf) (onLoad_store gltf)) /\
  scene_children (run (main w h) (pre ++ LoadSuccess gltf :: post)) =
    lights_only ++ [ChildGround ground; ChildObject] /\
  loaded (run (main w h) (pre ++ LoadSuccess gltf :: post)) <> None.
Proof.
  intros Hpre Hpost.
  assert (P : preload (run (main w h) pre))
    by (apply run_preload; [exact Hpre | apply main_preload]).
  destruct P as (C & L & _).
  split; [exact C|]. split; [exact L|].
  split; [cbn [step]; rewrite onLoad_fields; reflexivity|].
  rewrite run_app. cbn [run fold_left]. fold (run (main w h) pre).
  change (fold_left step post ?s) with (run s post).
  split.
  - rewrite run_scene_children by exact Hpost.
    cbn [step]. rewrite onLoad_fields. cbn [scene_children]. rewrite C.
    reflexivity.
  - apply run_loaded_some. cbn [step]. rewrite onLoad_fields. discriminate.
Qed.

(** *** What the load does to the asset *)

Lemma nodes_enableShadows (o : Object3D) :
  nodes (enableShadows o) = map withShadows (nodes o).
Proof.
  induction o as [d cs IH] using Object3D_ind.
  cbn [enableShadows nodes map]. f_equal.
  induction IH as [|c cs Hc _ IHcs]; [reflexivity|].
  cbn [map flat_map]. rewrite map_app, Hc, IHcs. reflexivity.
Qed.

Lemma nodes_on_root (f : Object3DData -> Object3DData) (o : Object3D) :
  nodes (on_root f o) = f (data_of o) :: tl (nodes o).
Proof. destruct o; reflexivity. Qed.

Lemma nodes_head (o : Object3D) : nodes o = data_of o :: tl (nodes o).
Proof. destruct o; reflexivity. Qed.


Lemma withShadows_isMesh (x : Object3DData) :
  isMesh (withShadows x) = isMesh x.
Proof. unfold withShadows. destruct (isMesh x) eqn:M; [|exact M]. exact M. Qed.

Lemma withShadows_other (x : Object3DData) :
  isMesh x = false -> withShadows x = x.
Proof. intros M. unfold withShadows. rewrite M. reflexivity. Qed.

Lemma withShadows_mesh (x : Object3DData) :
  isMesh x = true ->
  castShadow (withShadows x) = true /\ receiveShadow (withShadows x) = true.
Proof. intros M. unfold withShadows. rewrite M. split; reflexivity. Qed.

Lemma other_nodes_withShadows (l : list Object3DData) :
  map (fun d => (isMesh d, castShadow d, receiveShadow d))
    (filter (fun d => negb (isMesh d)) (map withShadows l)) =
  map (fun d => (isMesh d, castShadow d, receiveShadow d))
    (filter (fun d => negb (isMesh d)) l).
Proof.
  induction l as [|x l IH]; [reflexivity|].
  cbn [map filter]. rewrite withShadows_isMesh.
  destruct (isMesh x) eqn:M; cbn [negb]; [exact IH|].
  cbn [map]. rewrite IH, (withShadows_other x M). reflexivity.
Qed.

(** The traversal of lines 100-111 turns both shadow flags on for every
    mesh of the loaded object, and leaves the flags of every other node as
    they came. *)
Theorem meshes_cast_and_receive (gltf : GLTF) :
  nodes (onLoad_object gltf) = map withShadows (nodes (onLoad_centered gltf)) /\
  forallb
    (fun d => implb (isMesh d) (castShadow d && receiveShadow d))
    (nodes (onLoad_object gltf)) = true /\
  map (fun d => (isMesh d, castShadow d, receiveShadow d))
    (filter (fun d => negb (isMesh d)) (nodes (onLoad_object gltf))) =
  map (fun d => (isMesh d, castShadow d, receiveShadow d))
    (filter (fun d => negb (isMesh d)) (nodes (gltf_scene gltf))).
Proof.
  assert (E : nodes (onLoad_object gltf) =
              map withShadows (nodes (onLoad_centered gltf))).
  { rewrite onLoad_object_spec. apply nodes_enableShadows. }
  split; [exact E|]. rewrite E. split.
  - apply forallb_forall. intros d Hd. apply in_map_iff in Hd.
    destruct Hd as (x & <- & _). rewrite withShadows_isMesh.
    destruct (isMesh x) eqn:M; [|reflexivity].
    destruct (withShadows_mesh x M) as [-> ->]. reflexivity.
  - rewrite other_nodes_withShadows.
    unfold onLoad_centered. rewrite nodes_on_root.
    rewrite (nodes_head (gltf_scene gltf)) at 2.
    cbn [filter].
    change (isMesh (set_position ?r ?p)) with (isMesh r).
    destruct (isMesh (data_of (gltf_scene gltf))); reflexivity.
Qed.



(** *** Colours, starting values and the layout of the panel *)

Lemma ensureColor_idem (m : Material) :
  ensureColor (ensureColor m) = ensureColor m.
Proof. unfold ensureColor. destruct (color m) eqn:E; cbn; rewrite ?E; reflexivity. Qed.

Lemma collect_fst_step (acc : MaterialStore * JSSet) (m l : loc) :
  fst (collect acc m) l =
  if Nat.eqb l m then ensureColor (fst acc l) else fst acc l.
Proof.
  unfold collect, ensureColor, store_set; cbn [fst].
  destruct (Nat.eqb l m) eqn:E.
  - apply Nat.eqb_eq in E. subst l.
    destruct (color (fst acc m)); [reflexivity|].
    rewrite Nat.eqb_refl. reflexivity.
  - destruct (color (fst acc m)); [reflexivity|]. rewrite E. reflexivity.
Qed.

Lemma collect_fst (ms : list loc) :
  forall (acc : MaterialStore * JSSet) (l : loc),
    fst (fold_left collect ms acc) l =
    if existsb (Nat.eqb l) ms then ensureColor (fst acc l) else fst acc l.
Proof.
  induction ms as [|m ms IH]; intros acc l; [reflexivity|].
  cbn [fold_left existsb]. rewrite IH, collect_fst_step.
  destruct (Nat.eqb l m), (existsb (Nat.eqb l) ms); cbn [orb];
    rewrite ?ensureColor_idem; reflexivity.
Qed.

(** The load gives the colour 0x808080 to every material of a mesh that
    came without a colour and changes no material in any other way:
    materials with a colour, and materials no mesh refers to, are as they
    came. *)
Theorem colour_defaulting (gltf : GLTF) (l : loc) :
  onLoad_store gltf l =
  if existsb (Nat.eqb l) (mesh_materials (gltf_scene gltf))
  then ensureColor (gltf_materials gltf l)
  else gltf_materials gltf l.
Proof.
  unfold onLoad_store. rewrite onLoad_traversed_spec. cbn [snd].
  apply (collect_fst _ (gltf_materials gltf, []) l).
Qed.

(** Every control of a material's section starts at the value the
    material has after the traversal; the fallbacks 0.2 and 0.8 of lines
    131-132 never reach the panel, and no other kind of control is in the
    section. *)
Theorem controls_start_at_material (gltf : GLTF) (l : loc) (c : Controller) :
  In l (mesh_materials (gltf_scene gltf)) ->
  In c (controllers (matFolder (onLoad_store gltf) l)) ->
  starts_at (onLoad_store gltf l) c.
Proof.
  intros Hl Hc.
  assert (K : color (onLoad_store gltf l) <> None)
    by (apply onLoad_visit_color, onLoad_materials_In, Hl).
  revert Hc. unfold matFolder, matParams. cbn [controllers].
  destruct (color (onLoad_store gltf l)) as [hex|] eqn:C; [|congruence].
  destruct (metalness (onLoad_store gltf l)) eqn:M,
    (roughness (onLoad_store gltf l)) eqn:R; cbn;
    intuition (subst; cbn; auto).
Qed.

Lemma onLoad_gui_section (gltf : GLTF) (s : State) (i : nat) (m : loc) :
  nth_error (onLoad_materials gltf) i = Some m ->
  nth_error (gui (onLoad gltf s)) (List.length (gui s) + i) =
    Some (matFolder (onLoad_store gltf) m).
Proof.
  intros H. rewrite onLoad_fields. cbn [gui]. unfold onLoad_folders.
  assert (Hi : (i < List.length (onLoad_materials gltf))%nat)
    by (apply nth_error_Some; congruence).
  rewrite nth_error_app2 by lia.
  replace (List.length (gui s) + i - List.length (gui s))%nat with i by lia.
  rewrite nth_error_app1 by (rewrite length_map; exact Hi).
  apply map_nth_error. exact H.
Qed.

(** The success callback appends one folder per material of the set, in
    the set's order, and the Model folder after them. *)
Theorem panel_layout (gltf : GLTF) (s : State) (i : nat) (m : loc) :
  nth_error (onLoad_materials gltf) i = Some m ->
  nth_error (gui (onLoad gltf s)) (List.length (gui s) + i) =
    Some (matFolder (onLoad_store gltf) m) /\
  nth_error (gui (onLoad gltf s))
    (List.length (gui s) + List.length (onLoad_materials gltf)) =
    Some modelFolder /\
  List.length (gui (onLoad gltf s)) =
    (List.length (gui s) + List.length (onLoad_materials gltf) + 1)%nat.
Proof.
  intros H. split; [apply onLoad_gui_section, H|].
  rewrite onLoad_fields. cbn [gui]. unfold onLoad_folders. split.
  - rewrite nth_error_app2 by lia.
    replace (List.length (gui s) + List.length (onLoad_materials gltf)
             - List.length (gui s))%nat
      with (List.length (onLoad_materials gltf)) by lia.
    rewrite nth_error_app2 by (rewrite length_map; lia).
    rewrite length_map, Nat.sub_diag. reflexivity.
  - rewrite !length_app, length_map. cbn. lia.
Qed.

(** The four controls of a material's section compose: once colour,
    metalness, roughness and wireframe have each been written, in this
    order or in the reverse one, the material holds exactly the four
    values written, whatever it held before, and every other material is
    as it was. *)
Theorem material_controls_compose (s : State) (ld : Loaded) (l : loc)
    (hex : Z) (m r : Q) (b : bool) :
  loaded s = Some ld ->
  let forth :=
    invokeBoolean (setWireframe l) b
      (invokeNumber (setRoughness l) r
         (invokeNumber (setMetalness l) m (invokeColor (setHex l) hex s))) in
  let back :=
    invokeColor (setHex l) hex
      (invokeNumber (setMetalness l) m
         (invokeNumber (setRoughness l) r (invokeBoolean (setWireframe l) b s))) in
  exists ld1 ld2,
    loaded forth = Some ld1 /\ loaded back = Some ld2 /\
    object ld1 = object ld /\ object ld2 = object ld /\
    forall l',
      store ld1 l' = store ld2 l' /\
      store ld1 l' =
        if Nat.eqb l' l
        then mkMaterial (Some (Color_setHex hex)) (Some m) (Some r) (Some b)
        else store ld l'.
Proof.
  intros H forth back. unfold forth, back.
  cbn [invokeColor invokeNumber invokeBoolean]. unfold on_material. cbn.
  rewrite H. cbn. eexists. eexists.
  split; [reflexivity|]. split; [reflexivity|]. cbn [object store].
  split; [reflexivity|]. split; [reflexivity|].
  intros l'. unfold store_set. rewrite ?Nat.eqb_refl.
  destruct (Nat.eqb l' l); split; reflexivity.
Qed.


(** *** Edges of the bounding box *)

Lemma getSize_nonneg (b : Box3) :
  0 <= vx (getSize b) /\ 0 <= vy (getSize b) /\ 0 <= vz (getSize b).
Proof.
  unfold getSize. destruct (isEmpty b) eqn:E.
  - cbn. repeat split; apply Qle_refl.
  - destruct b as [|mn mx]; [discriminate|].
    cbn in E. apply orb_false_iff in E. destruct E as [E E3].
    apply orb_false_iff in E. destruct E as [E1 E2].
    unfold Qltb in E1, E2, E3.
    apply negb_false_iff, Qle_bool_iff in E1.
    apply negb_false_iff, Qle_bool_iff in E2.
    apply negb_false_iff, Qle_bool_iff in E3.
    cbn. repeat split; lra.
Qed.

(** The depth the success callback assigns to the camera is never
    negative. *)
Theorem camera_depth_nonnegative (gltf : GLTF) (s : State) :
  0 <= vz (camera_position (onLoad_camera gltf s)).
Proof.
  unfold onLoad_camera, onLoad_maxDim. cbn [set_camera_position camera_position vz].
  destruct (getSize_nonneg (onLoad_box gltf)) as (H & _).
  assert (K : 0 <= maxDim (getSize (onLoad_box gltf))).
  { unfold maxDim. eapply Qle_trans; [exact H|].
    eapply Qle_trans; [apply Q.le_max_l|]. apply Q.le_max_l. }
  cbv zeta. lra.
Qed.

Lemma children_vertexless (cs : list Object3D) :
  forallb
    (fun d => match geometry_of d with Some (_ :: _) => false | _ => true end)
    (flat_map nodes cs) = true ->
  Forall (fun c => vertexless c = true) cs.
Proof.
  induction cs as [|c cs IH]; intros H; constructor.
  - cbn [flat_map] in H. rewrite forallb_app in H.
    apply andb_true_iff in H. apply H.
  - apply IH. cbn [flat_map] in H. rewrite forallb_app in H.
    apply andb_true_iff in H. apply H.
Qed.

Lemma expandByObject_vertexless (o : Object3D) :
  forall W, vertexless o = true -> expandByObject W o EmptyBox = EmptyBox.
Proof.
  induction o as [d cs IH] using Object3D_ind. intros W H.
  unfold vertexless in H. cbn [nodes forallb] in H.
  apply andb_true_iff in H. destruct H as [Hd Hcs].
  apply children_vertexless in Hcs. cbn [expandByObject].
  assert (B : match geometry_of d with
              | Some g =>
                  union EmptyBox
                    (applyMatrix4 (setFromPoints g) (fun p => W (matrix d p)))
              | None => EmptyBox
              end = EmptyBox).
  { destruct (geometry_of d) as [[|v vs]|]; [reflexivity | discriminate
                                              | reflexivity]. }
  rewrite B. generalize (fun p : Vector3 => W (matrix d p)) as W1. intros W1.
  induction IH as [|c cs Hc _ IHcs]; [reflexivity|].
  cbn [fold_left]. inversion Hcs; subst.
  rewrite Hc by assumption. apply IHcs. assumption.
Qed.

(** An asset without a single vertex has an empty bounding box: the root
    is moved by the zero vector and the camera is given depth 0. *)
Theorem vertexless_asset (gltf : GLTF) (s : State) :
  vertexless (gltf_scene gltf) = true ->
  onLoad_box gltf = EmptyBox /\
  onLoad_center gltf = v0 /\
  veq (position (data_of (onLoad_object gltf)))
    (position (data_of (gltf_scene gltf))) /\
  vz (camera_position (onLoad_camera gltf s)) == 0.
Proof.
  intros H.
  assert (B : onLoad_box gltf = EmptyBox).
  { unfold onLoad_box, setFromObject. apply expandByObject_vertexless, H. }
  assert (C : onLoad_center gltf = v0).
  { unfold onLoad_center. rewrite B. reflexivity. }
  split; [exact B|]. split; [exact C|]. split.
  - rewrite onLoad_object_position. fold (onLoad_box gltf).
    fold (onLoad_center gltf). rewrite C.
    unfold veq, vsub, v0; cbn. repeat split; ring.
  - unfold onLoad_camera, onLoad_maxDim.
    cbn [set_camera_position camera_position vz]. rewrite B. reflexivity.
Qed.

(** *** What the panel's ranges guarantee *)

Lemma clamp_range (v mn mx : Q) :
  mn <= mx -> mn <= clamp v mn mx /\ clamp v mn mx <= mx.
Proof.
  intros H. unfold clamp, Qltb.
  destruct (Qle_bool mn v) eqn:E1; cbn [negb].
  - destruct (Qle_bool v mx) eqn:E2; cbn [negb].
    + apply Qle_bool_iff in E1. apply Qle_bool_iff in E2. split; assumption.
    + split; [exact H | apply Qle_refl].
  - split; [apply Qle_refl | exact H].
Qed.

(** After the load, an input of any value on the scale control leaves the
    loaded root with the same scale on all three axes, the input clamped
    to the control's range: never below 0.1, never above 2. *)
Theorem scale_stays_in_range (gltf : GLTF) (st : State) (v : Q) :
  let s1 := onLoad gltf st in
  let k := (List.length (gui st) + List.length (onLoad_materials gltf))%nat in
  let c := clamp v (1 # 10) 2 in
  1 # 10 <= c /\ c <= 2 /\
  exists ld,
    loaded (step s1 (NumberInput k 0 v)) = Some ld /\
    scale (data_of (object ld)) = vec3 c c c.
Proof.
  intros s1 k c.
  destruct (clamp_range v (1 # 10) 2) as [L U]; [lra|].
  split; [exact L|]. split; [exact U|].
  assert (Hc : nth_controller (gui s1) k 0 =
               Some (NumberController "scale" "scale" (1 # 10) 2 1 setScale)).
  { unfold s1, k. rewrite modelFolder_index. reflexivity. }
  cbn [step]. rewrite Hc. cbv zeta.
  unfold s1. rewrite onLoad_fields. cbn.
  destruct (onLoad_object gltf) as [d cs]. eexists. split; reflexivity.
Qed.

Lemma update_nth_In {A : Type} (n : nat) (x y : A) (l : list A) :
  In y (update_nth n x l) -> In y l \/ y = x.
Proof.
  revert n. induction l as [|z l IH]; intros [|n]; cbn; try tauto.
  - intros [H|H]; auto.
  - intros [H|H]; auto. destruct (IH n H); auto.
Qed.

Lemma nth_controller_In (g : list Folder) (f c : nat) (x : Controller) :
  nth_controller g f c = Some x ->
  exists fo, In fo g /\ In x (controllers fo).
Proof.
  unfold nth_controller. destruct (nth_error g f) as [fo|] eqn:E; [|discriminate].
  intros H. exists fo. split; eapply nth_error_In; eassumption.
Qed.

Lemma set_controller_In (g : list Folder) (f c : nat) (x y : Controller)
    (fo' : Folder) :
  In fo' (set_controller g f c x) -> In y (controllers fo') ->
  y = x \/ exists fo, In fo g /\ In y (controllers fo).
Proof.
  unfold set_controller. destruct (nth_error g f) as [fo|] eqn:E.
  - intros H Hy. apply update_nth_In in H. destruct H as [H|H].
    + right. exists fo'. auto.
    + subst fo'. cbn [controllers] in Hy. apply update_nth_In in Hy.
      destruct Hy as [Hy|Hy]; [|auto].
      right. exists fo. split; [eapply nth_error_In; eassumption | exact Hy].
  - intros H Hy. right. exists fo'. auto.
Qed.

Lemma intensity_ranges_set (g : list Folder) (f c : nat) (x x' : Controller) :
  intensity_ranges g ->
  nth_controller g f c = Some x ->
  (forall p n mn mx v l,
      x' = NumberController p n mn mx v (setIntensity l) ->
      exists v0, x = NumberController p n mn mx v0 (setIntensity l)) ->
  intensity_ranges (set_controller g f c x').
Proof.
  intros R Hx Hsame fo p n mn mx v l Hfo Hin.
  destruct (set_controller_In g f c x' _ fo Hfo Hin) as [E|(fo0 & H1 & H2)].
  - symmetry in E. destruct (Hsame p n mn mx v l E) as (v0 & ->).
    destruct (nth_controller_In g f c _ Hx) as (fo0 & H1 & H2).
    eapply R; eassumption.
  - eapply R; eassumption.
Qed.

Lemma intensity_ranges_onLoad (gltf : GLTF) (g : list Folder) :
  intensity_ranges g -> intensity_ranges (g ++ onLoad_folders gltf).
Proof.
  intros R fo p n mn mx v l Hfo Hin. apply in_app_or in Hfo.
  destruct Hfo as [Hfo|Hfo]; [eapply R; eassumption|].
  unfold onLoad_folders in Hfo. apply in_app_or in Hfo.
  destruct Hfo as [Hfo|[Hfo|[]]].
  - apply in_map_iff in Hfo. destruct Hfo as (m & <- & _).
    apply matFolder_callbacks in Hin. discriminate.
  - subst fo. cbn in Hin. intuition discriminate.
Qed.

Lemma step_intensity (s : State) (e : Event) :
  intensity_ranges (gui s) ->
  (forall l, 0 <= intensity (lights s l) /\ intensity (lights s l) <= 1) ->
  intensity_ranges (gui (step s e)) /\
  forall l,
    0 <= intensity (lights (step s e) l) /\
    intensity (lights (step s e) l) <= 1.
Proof.
  intros R B. destruct e; cbn [step].
  - rewrite onLoad_fields. cbn [gui lights].
    split; [apply intensity_ranges_onLoad, R | exact B].
  - split; assumption.
  - split; assumption.
  - destruct (frame_requested s); split; assumption.
  - destruct (resize_listener s); split; assumption.
  - destruct (nth_controller (gui s) folder controller) as [x|] eqn:Hx;
      [|split; assumption].
    destruct x as [p n mn mx v0 cb| |]; try (split; assumption).
    destruct (invokeNumber_shell cb (clamp value mn mx)
                (with_gui s
                   (set_controller (gui s) folder controller
                      (NumberController p n mn mx (clamp value mn mx) cb))))
      as (_ & _ & _ & _ & _ & _ & G & _).
    rewrite G. cbn [with_gui gui]. split.
    + eapply intensity_ranges_set; [exact R | exact Hx|].
      intros p' n' mn' mx' v' l E. injection E as <- <- <- <- _ <-.
      eexists. reflexivity.
    + destruct cb; try exact B.
      destruct (nth_controller_In _ _ _ _ Hx) as (fo & H1 & H2).
      destruct (R fo p n mn mx v0 l H1 H2) as [-> ->].
      intros l'. cbn [invokeNumber with_lights lights with_gui].
      destruct (LightId_eqb l' l); [|apply B].
      cbn [set_intensity intensity]. apply clamp_range. lra.
  - destruct (nth_controller (gui s) folder controller) as [x|] eqn:Hx;
      [|split; assumption].
    destruct x as [| p v0 cb |]; try (split; assumption).
    destruct cb. cbn. split; [|exact B].
    eapply intensity_ranges_set; [exact R | exact Hx|].
    intros; discriminate.
  - destruct (nth_controller (gui s) folder controller) as [x|] eqn:Hx;
      [|split; assumption].
    destruct x as [| | p v0 cb]; try (split; assumption).
    destruct cb. cbn. split; [|exact B].
    eapply intensity_ranges_set; [exact R | exact Hx|].
    intros; discriminate.
Qed.

(** Whatever events arrive, the intensity of each of the four lights
    stays within [0, 1], the range the script gives to its control. *)
Theorem light_intensity_in_range (w h : Z) (events : list Event)
    (l : LightId) :
  0 <= intensity (lights (run (main w h) events) l) /\
  intensity (lights (run (main w h) events) l) <= 1.
Proof.
  assert (G : forall evs s,
             intensity_ranges (gui s) ->
             (forall l, 0 <= intensity (lights s l) /\
                        intensity (lights s l) <= 1) ->
             forall l, 0 <= intensity (lights (run s evs) l) /\
                       intensity (lights (run s evs) l) <= 1).
  { induction evs as [|e evs IH]; intros s R B; [exact B|].
    cbn [run fold_left]. destruct (step_intensity s e R B) as [R' B'].
    apply IH; assumption. }
  apply G.
  - intros fo p n mn mx v l' [<-|[]] Hin. cbn in Hin.
    repeat (destruct Hin as [Hin|Hin];
            [injection Hin as _ _ <- <- _ _; split; reflexivity|]).
    destruct Hin.
  - intros l'. destruct l'; cbn; split; lra.
Qed.


(** *** When the box is empty *)

Lemma fold_expandByPoint_box (pts : list Vector3) :
  forall b, is_box b = true -> is_box (fold_left expandByPoint pts b) = true.
Proof.
  induction pts as [|p pts IH]; intros b H; [exact H|].
  cbn [fold_left]. apply IH. destruct b; reflexivity.
Qed.

Lemma setFromPoints_box (p : Vector3) (pts : list Vector3) :
  is_box (setFromPoints (p :: pts)) = true.
Proof. unfold setFromPoints. cbn [fold_left]. apply fold_expandByPoint_box. reflexivity. Qed.

Lemma applyMatrix4_box (p : Vector3) (pts : list Vector3) (W : Matrix4) :
  is_box (applyMatrix4 (setFromPoints (p :: pts)) W) = true.
Proof.
  pose proof (setFromPoints_box p pts) as B.
  pose proof (setFromPoints_ordered (p :: pts)) as O.
  destruct (setFromPoints (p :: pts)) as [|mn mx]; [discriminate|].
  unfold applyMatrix4. rewrite (isEmpty_Box mn mx O).
  apply setFromPoints_box.
Qed.

Lemma union_box_l (a b : Box3) : is_box a = true -> is_box (union a b) = true.
Proof. destruct a, b; auto. Qed.

Lemma union_box_r (a b : Box3) : is_box b = true -> is_box (union a b) = true.
Proof. destruct a, b; auto. Qed.

Lemma expandByObject_box (o : Object3D) :
  forall W b, is_box b = true -> is_box (expandByObject W o b) = true.
Proof.
  induction o as [d cs IH] using Object3D_ind. intros W b H.
  cbn [expandByObject].
  assert (B : is_box
                match geometry_of d with
                | Some g =>
                    union b
                      (applyMatrix4 (setFromPoints g) (fun p => W (matrix d p)))
                | None => b
                end = true).
  { destruct (geometry_of d); [apply union_box_l|]; exact H. }
  revert B.
  generalize
    match geometry_of d with
    | Some g =>
        union b (applyMatrix4 (setFromPoints g) (fun p => W (matrix d p)))
    | None => b
    end as b1.
  generalize (fun p : Vector3 => W (matrix d p)) as W1. intros W1.
  induction IH as [|c cs Hc _ IHcs]; intros b1 B; [exact B|].
  cbn [fold_left]. apply IHcs. apply Hc. exact B.
Qed.

Lemma fold_expandByObject_box (cs : list Object3D) (W : Matrix4) :
  forall b,
    is_box b = true ->
    is_box (fold_left (fun acc c => expandByObject W c acc) cs b) = true.
Proof.
  induction cs as [|c cs IH]; intros b H; [exact H|].
  cbn [fold_left]. apply IH. apply expandByObject_box. exact H.
Qed.

Lemma expandByObject_vertices (o : Object3D) :
  forall W b, vertexless o = false -> is_box (expandByObject W o b) = true.
Proof.
  induction o as [d cs IH] using Object3D_ind. intros W b H.
  unfold vertexless in H. cbn [nodes forallb] in H.
  apply andb_false_iff in H. cbn [expandByObject].
  destruct H as [H|H].
  - apply fold_expandByObject_box.
    destruct (geometry_of d) as [[|v vs]|]; try discriminate.
    apply union_box_r, applyMatrix4_box.
  - generalize
      match geometry_of d with
      | Some g =>
          union b (applyMatrix4 (setFromPoints g) (fun p => W (matrix d p)))
      | None => b
      end as b1.
    generalize (fun p : Vector3 => W (matrix d p)) as W1. intros W1.
    induction IH as [|c cs Hc _ IHcs]; intros b1; [discriminate|].
    cbn [flat_map] in H. rewrite forallb_app in H.
    apply andb_false_iff in H. cbn [fold_left]. destruct H as [H|H].
    + apply fold_expandByObject_box. apply Hc. exact H.
    + apply IHcs. exact H.
Qed.

(** The box measured on line 94 is empty exactly when no node of the
    asset has a vertex. *)
Theorem box_empty_iff_vertexless (gltf : GLTF) :
  is_box (onLoad_box gltf) = negb (vertexless (gltf_scene gltf)).
Proof.
  unfold onLoad_box, setFromObject.
  destruct (vertexless (gltf_scene gltf)) eqn:V; cbn [negb].
  - rewrite expandByObject_vertexless by exact V. reflexivity.
  - apply expandByObject_vertices. exact V.
Qed.

(** *** The order of the material sections *)

Lemma set_add_filter (s : JSSet) (x y : loc) :
  x <> y ->
  filter (fun z => negb (Nat.eqb z x)) (set_add s y) =
  set_add (filter (fun z => negb (Nat.eqb z x)) s) y.
Proof.
  intros N. unfold set_add.
  assert (E : existsb (Nat.eqb y) (filter (fun z => negb (Nat.eqb z x)) s) =
              existsb (Nat.eqb y) s).
  { induction s as [|z s IH]; [reflexivity|]. cbn [filter existsb].
    destruct (Nat.eqb z x) eqn:Z; cbn [negb existsb]; rewrite IH.
    - apply Nat.eqb_eq in Z. subst z.
      assert (K : Nat.eqb y x = false) by (apply Nat.eqb_neq; congruence).
      rewrite K. reflexivity.
    - reflexivity. }
  rewrite E. destruct (existsb (Nat.eqb y) s); [reflexivity|].
  rewrite filter_app. cbn [filter].
  assert (K : Nat.eqb y x = false) by (apply Nat.eqb_neq; congruence).
  rewrite K. reflexivity.
Qed.

Lemma fold_set_add_filter (l : list loc) (x : loc) :
  forall s,
    filter (fun z => negb (Nat.eqb z x)) (fold_left set_add l s) =
    fold_left set_add (filter (fun z => negb (Nat.eqb z x)) l)
      (filter (fun z => negb (Nat.eqb z x)) s).
Proof.
  induction l as [|y l IH]; intros s; [reflexivity|].
  cbn [fold_left filter]. rewrite IH.
  destruct (Nat.eqb y x) eqn:E; cbn [negb fold_left].
  - apply Nat.eqb_eq in E. subst y. f_equal.
    unfold set_add. destruct (existsb (Nat.eqb x) s); [reflexivity|].
    rewrite filter_app. cbn [filter]. rewrite Nat.eqb_refl. cbn [negb].
    apply app_nil_r.
  - f_equal. apply set_add_filter. apply Nat.eqb_neq in E. congruence.
Qed.

Lemma fold_set_add_cons (l : list loc) (x : loc) :
  fold_left set_add l [x] =
  x :: filter (fun z => negb (Nat.eqb z x)) (fold_left set_add l []).
Proof.
  assert (G : forall l s,
             ~ In x s ->
             fold_left set_add l (x :: s) =
             x :: filter (fun z => negb (Nat.eqb z x)) (fold_left set_add l s)).
  { induction l0 as [|y l0 IH]; intros s Hs.
    - cbn [fold_left]. f_equal. symmetry.
      induction s as [|z s IHs]; [reflexivity|]. cbn [filter].
      assert (K : Nat.eqb z x = false).
      { apply Nat.eqb_neq. intros ->. apply Hs. left. reflexivity. }
      rewrite K. change (negb false) with true. cbv iota.
      apply (f_equal (cons z)).
      apply IHs. intros H. apply Hs. right. exact H.
    - cbn [fold_left]. unfold set_add at 2 4. cbn [existsb].
      destruct (Nat.eqb y x) eqn:E; cbn [orb].
      + apply Nat.eqb_eq in E. subst y.
        rewrite IH by exact Hs.
        destruct (existsb (Nat.eqb x) s) eqn:X.
        * reflexivity.
        * f_equal. rewrite !fold_set_add_filter. f_equal.
          rewrite filter_app. cbn [filter]. rewrite Nat.eqb_refl.
          cbn [negb]. symmetry. apply app_nil_r.
      + destruct (existsb (Nat.eqb y) s) eqn:Y.
        * apply IH. exact Hs.
        * change ((x :: s) ++ [y]) with (x :: (s ++ [y])).
          apply IH. rewrite in_app_iff. intros [H|[H|[]]]; [tauto|].
          subst y. rewrite Nat.eqb_refl in E. discriminate. }
  apply G. intros [].
Qed.

Lemma fold_set_add_first_occurrences (l : list loc) :
  fold_left set_add l [] = first_occurrences l.
Proof.
  induction l as [|x l IH]; [reflexivity|].
  cbn [fold_left first_occurrences].
  change (set_add [] x) with [x].
  rewrite fold_set_add_cons, IH. reflexivity.
Qed.

(** The materials set lists the materials of the meshes once each, in the
    order in which the traversal first meets them; the material sections
    of the panel follow in that order. *)
Theorem materials_in_order_of_first_use (gltf : GLTF) :
  onLoad_materials gltf = first_occurrences (mesh_materials (gltf_scene gltf)) /\
  onLoad_folders gltf =
    map (matFolder (onLoad_store gltf))
      (first_occurrences (mesh_materials (gltf_scene gltf)))
    ++ [modelFolder].
Proof.
  assert (E : onLoad_materials gltf =
              first_occurrences (mesh_materials (gltf_scene gltf))).
  { rewrite onLoad_materials_spec. apply fold_set_add_first_occurrences. }
  split; [exact E|]. unfold onLoad_folders. rewrite E. reflexivity.
Qed.

(** *** Inputs on a material's section *)

(** After the load, a colour chosen on the first control of the section
    of the [i]-th material of the set recolours that material and no
    other, and leaves the loaded root as it is. *)
Theorem colour_input_recolours (gltf : GLTF) (st : State) (i : nat) (m : loc)
    (hex : Z) :
  nth_error (onLoad_materials gltf) i = Some m ->
  let s1 := onLoad gltf st in
  let s2 := step s1 (ColorInput (List.length (gui st) + i) 0 hex) in
  exists ld,
    loaded s2 = Some ld /\
    object ld = onLoad_object gltf /\
    forall l',
      store ld l' =
      if Nat.eqb l' m
      then set_color (onLoad_store gltf m) (Some (Color_setHex hex))
      else onLoad_store gltf l'.
Proof.
  intros H s1 s2.
  pose proof (onLoad_gui_section gltf st i m H) as F.
  assert (C : exists c, nth_controller (gui s1) (List.length (gui st) + i) 0 =
                        Some (ColorController "color" c (setHex m))).
  { unfold nth_controller, s1. rewrite F. eexists. reflexivity. }
  destruct C as (c & C). unfold s2. cbn [step]. rewrite C.
  unfold s1 at 1. rewrite onLoad_fields. cbn.
  eexists. split; [reflexivity|]. split; [reflexivity|].
  intros l'. cbn [store]. unfold store_set.
  destruct (Nat.eqb l' m); reflexivity.
Qed.

End Script.

(** ** The script run on the sample asset *)

Local Abbreviation houseMain := (main PI_approx restingControls 800 600).

Local Abbreviation houseLoaded :=
  (onLoad PI_approx noRotation restingControls house houseMain).

Example house_box :
  onLoad_box noRotation house = Box (vec3 0 2 3) (vec3 6 6 9).
Proof. vm_compute. reflexivity. Qed.

Example house_centre : veq (onLoad_center noRotation house) (vec3 3 4 6).
Proof. vm_compute. repeat split. Qed.

Example house_materials : onLoad_materials noRotation house = [0; 1; 3]%nat.
Proof. vm_compute. reflexivity. Qed.

Example house_titles :
  map title (gui houseLoaded) =
  ["Lighting"; "Material [object Object]1"; "Material [object Object]1";
   "Material [object Object]1"; "Model"]%string.
Proof. vm_compute. reflexivity. Qed.

Example house_camera : camera_position (camera houseLoaded) = vec3 0 0 12.
Proof. vm_compute. reflexivity. Qed.

Example house_default_colour :
  color (houseStore 3%nat) = None /\
  color (onLoad_store noRotation house 3%nat) = Some 8421504%Z.
Proof. vm_compute. split; reflexivity. Qed.

(** With a controller that enforces its distance limits (2 and 20, lines
    28-29) the camera of a 30 unit wide asset ends at depth 20, not 60. *)
Remark hall_camera_limited :
  onLoad_maxDim noRotation hall * 2 == 60 /\
  camera_position
    (camera
       (onLoad PI_approx noRotation limitingControls hall
          (main PI_approx limitingControls 800 600))) = vec3 0 0 20.
Proof. split; vm_compute; reflexivity. Qed.

(** C1 as stated fails on the sample asset: the box whose size gives the
    camera depth (line 182) is the box of line 94, computed before the root
    was centred, here from (0, 2, 3) to (6, 6, 9); it is not the box of the
    centred root, which reaches from (-3, -2, -3) to (3, 2, 3). *)
Lemma C1_box_not_recomputed :
  ~ (vz (camera_position (onLoad_camera noRotation house houseMain)) ==
       maxDim (getSize (setFromObject noRotation
                          (onLoad_object noRotation house))) * 2 /\
     beq (onLoad_box noRotation house)
       (setFromObject noRotation (onLoad_object noRotation house))).
Proof.
  intros [_ H]. vm_compute in H. destruct H as [[H _] _]. discriminate H.
Qed.

Lemma C3_witness :
  In 0%nat (mesh_materials (gltf_scene house)) /\
  gui houseLoaded = gui houseMain ++ onLoad_folders PI_approx noRotation house /\
  List.length
    (filter (section_of 0%nat) (onLoad_folders PI_approx noRotation house)) =
  1%nat.
Proof.
  split; [simpl; left; reflexivity|].
  apply (C3_one_section_per_material PI_approx noRotation restingControls
           house houseMain 0%nat).
  simpl. left. reflexivity.
Defined.

Lemma C4_witness :
  In 1%nat (mesh_materials (gltf_scene house)) /\
  exists f,
    In f (onLoad_folders PI_approx noRotation house) /\
    section_of 1%nat f = true /\
    (forall f', In f' (onLoad_folders PI_approx noRotation house) ->
                section_of 1%nat f' = true -> f' = f) /\
    (has_control "metalness" f = true <->
     metalness (gltf_materials house 1%nat) <> None) /\
    (has_control "roughness" f = true <->
     roughness (gltf_materials house 1%nat) <> None).
Proof.
  assert (H : In 1%nat (mesh_materials (gltf_scene house))).
  { simpl. right. right. left. reflexivity. }
  split; [exact H|].
  apply (C4_metalness_roughness_controls PI_approx noRotation house 1%nat).
  exact H.
Defined.

Lemma C5_witness :
  1 # 10 <= 3 # 2 /\ 3 # 2 <= 2 /\
  nth_controller (gui houseLoaded) 4 0 =
    Some (NumberController "scale" "scale" (1 # 10) 2 1 setScale) /\
  (exists ld,
      loaded (invokeNumber setScale (3 # 2) houseLoaded) = Some ld /\
      scale (data_of (object ld)) = vec3 (3 # 2) (3 # 2) (3 # 2)) /\
  (exists ld,
      loaded
        (step PI_approx noRotation restingControls houseLoaded
           (NumberInput 4 0 (3 # 2))) = Some ld /\
      scale (data_of (object ld)) = vec3 (3 # 2) (3 # 2) (3 # 2)).
Proof.
  assert (H1 : 1 # 10 <= 3 # 2) by (unfold Qle; simpl; lia).
  assert (H2 : 3 # 2 <= 2) by (unfold Qle; simpl; lia).
  split; [exact H1|]. split; [exact H2|].
  exact (C5_uniform_scale PI_approx noRotation restingControls house houseMain
           (3 # 2) H1 H2).
Defined.

Lemma C7_witness :
  forallb (fun e => negb (is_success e)) earlyEvents = true /\
  forallb (fun e => negb (is_success e)) lateEvents = true /\
  grounds (run PI_approx noRotation restingControls houseMain earlyEvents)
    = [] /\
  grounds
    (step PI_approx noRotation restingControls
       (run PI_approx noRotation restingControls houseMain earlyEvents)
       (LoadSuccess house)) = [ChildGround (ground PI_approx)] /\
  grounds
    (run PI_approx noRotation restingControls houseMain
       (earlyEvents ++ LoadSuccess house :: lateEvents))
    = [ChildGround (ground PI_approx)] /\
  ground_geometry (ground PI_approx) = mkPlane 50 50 /\
  ground_rotation (ground PI_approx) = vec3 (- PI_approx / 2) 0 0 /\
  ground_position (ground PI_approx) = vec3 0 (-2) 0 /\
  ground_receiveShadow (ground PI_approx) = true /\
  ground_castShadow (ground PI_approx) = false.
Proof.
  split; [reflexivity|]. split; [reflexivity|].
  apply (C7_ground_plane PI_approx noRotation restingControls 800 600
           earlyEvents lateEvents house); reflexivity.
Defined.

Lemma C8_witness :
  forallb (fun e => negb (is_completion e)) earlyEvents = true /\
  forallb (fun e => negb (is_completion e)) lateEvents = true /\
  let s0 := run PI_approx noRotation restingControls houseMain earlyEvents in
  let s1 :=
    step PI_approx noRotation restingControls s0 (LoadError "404") in
  let s2 := run PI_approx noRotation restingControls s1 lateEvents in
  s1 = with_console s0 (console s0 ++ [console_error "404"]) /\
  scene_children s2 = lights_only /\
  filter is_ground (scene_children s2) = [] /\
  filter is_object (scene_children s2) = [] /\
  loaded s2 = None /\
  map title (gui s2) = ["Lighting"%string] /\
  load_requests s2 = ["assets/House_OKC.glb"%string] /\
  filter is_error (console s2) = [console_error "404"] /\
  frame_requested s2 = true /\
  frames_rendered s2 =
    (1 + List.length (filter is_frame (earlyEvents ++ lateEvents)))%nat.
Proof.
  split; [reflexivity|]. split; [reflexivity|].
  apply (C8_load_failure PI_approx noRotation restingControls 800 600
           earlyEvents lateEvents "404"); reflexivity.
Defined.

Lemma C9_witness :
  loaded houseLoaded =
    Some (mkLoaded (onLoad_object noRotation house)
            (onLoad_store noRotation house)) /\
  (forall c, In c (controllers (matFolder (onLoad_store noRotation house) 0%nat))
             -> controller_material c = Some 0%nat) /\
  (forall hex,
      written 0%nat (fun m => color m = Some (Color_setHex hex)) houseLoaded
        (invokeColor (setHex 0%nat) hex houseLoaded)) /\
  (forall v,
      written 0%nat (fun m => metalness m = Some v) houseLoaded
        (invokeNumber (setMetalness 0%nat) v houseLoaded)) /\
  (forall v,
      written 0%nat (fun m => roughness m = Some v) houseLoaded
        (invokeNumber (setRoughness 0%nat) v houseLoaded)) /\
  (forall b,
      written 0%nat (fun m => wireframe m = Some b) houseLoaded
        (invokeBoolean (setWireframe 0%nat) b houseLoaded)).
Proof.
  assert (H : loaded houseLoaded =
              Some (mkLoaded (onLoad_object noRotation house)
                      (onLoad_store noRotation house))).
  { vm_compute. reflexivity. }
  split; [exact H|].
  apply (C9_material_writes houseLoaded
           (mkLoaded (onLoad_object noRotation house)
              (onLoad_store noRotation house))
           0%nat (onLoad_store noRotation house)).
  exact H.
Defined.

(** ** The further properties run on the sample assets *)

Local Abbreviation houseAsset :=
  (mkLoaded (onLoad_object noRotation house) (onLoad_store noRotation house)).

Lemma resize_viewport_witness :
  768%Z <> 0%Z /\
  let s := run PI_approx noRotation restingControls houseMain earlyEvents in
  let s' :=
    step PI_approx noRotation restingControls s (WindowResize 1024 768) in
  aspect (camera s') = inject_Z 1024 / inject_Z 768 /\
  projection_aspect (camera s') = inject_Z 1024 / inject_Z 768 /\
  renderer_width (renderer s') = 1024%Z /\
  renderer_height (renderer s') = 768%Z /\
  camera_position (camera s') = camera_position (camera s) /\
  fov (camera s') = fov (camera s) /\
  near (camera s') = near (camera s) /\
  far (camera s') = far (camera s) /\
  scene_children s' = scene_children s /\
  loaded s' = loaded s /\
  lights s' = lights s /\
  gui s' = gui s.
Proof.
  split; [lia|].
  apply (resize_viewport PI_approx noRotation restingControls 800 600
           earlyEvents 1024 768).
  lia.
Defined.

Lemma rotation_controls_witness :
  loaded houseLoaded = Some houseAsset /\
  loaded
    (invokeNumber setRotationZ 3
       (invokeNumber setRotationY 2 (invokeNumber setRotationX 1 houseLoaded)))
  = Some
      (mkLoaded
         (on_root (fun d => set_rotation d (vec3 1 2 3)) (object houseAsset))
         (store houseAsset)).
Proof.
  assert (H : loaded houseLoaded = Some houseAsset)
    by (vm_compute; reflexivity).
  split; [exact H|].
  apply (rotation_controls houseLoaded houseAsset 1 2 3). exact H.
Defined.

Lemma no_controls_before_load_witness :
  forallb (fun e => negb (is_success e)) earlyEvents = true /\
  (1 <= 2)%nat /\
  let s := run PI_approx noRotation restingControls houseMain earlyEvents in
  (forall v,
      step PI_approx noRotation restingControls s (NumberInput 2 0 v) = s) /\
  (forall v,
      step PI_approx noRotation restingControls s (ColorInput 2 0 v) = s) /\
  (forall v,
      step PI_approx noRotation restingControls s (BooleanInput 2 0 v) = s).
Proof.
  split; [reflexivity|]. split; [lia|].
  apply (no_controls_before_load PI_approx noRotation restingControls 800 600
           earlyEvents 2 0); [reflexivity | lia].
Defined.

Lemma scene_after_load_witness :
  forallb (fun e => negb (is_success e)) earlyEvents = true /\
  forallb (fun e => negb (is_success e)) lateEvents = true /\
  scene_children
    (run PI_approx noRotation restingControls houseMain earlyEvents)
    = lights_only /\
  loaded (run PI_approx noRotation restingControls houseMain earlyEvents)
    = None /\
  loaded
    (step PI_approx noRotation restingControls
       (run PI_approx noRotation restingControls houseMain earlyEvents)
       (LoadSuccess house)) = Some houseAsset /\
  scene_children
    (run PI_approx noRotation restingControls houseMain
       (earlyEvents ++ LoadSuccess house :: lateEvents))
    = lights_only ++ [ChildGround (ground PI_approx); ChildObject] /\
  loaded
    (run PI_approx noRotation restingControls houseMain
       (earlyEvents ++ LoadSuccess house :: lateEvents)) <> None.
Proof.
  split; [reflexivity|]. split; [reflexivity|].
  apply (scene_after_load PI_approx noRotation restingControls 800 600
           earlyEvents lateEvents house); reflexivity.
Defined.

Lemma controls_start_at_material_witness :
  In 3%nat (mesh_materials (gltf_scene house)) /\
  In (ColorController "color" 8421504 (setHex 3%nat))
    (controllers (matFolder (onLoad_store noRotation house) 3%nat)) /\
  starts_at (onLoad_store noRotation house 3%nat)
    (ColorController "color" 8421504 (setHex 3%nat)).
Proof.
  assert (H1 : In 3%nat (mesh_materials (gltf_scene house))).
  { simpl. right. right. right. left. reflexivity. }
  assert (H2 : In (ColorController "color" 8421504 (setHex 3%nat))
                 (controllers (matFolder (onLoad_store noRotation house) 3%nat))).
  { vm_compute. left. reflexivity. }
  split; [exact H1|]. split; [exact H2|].
  apply (controls_start_at_material noRotation house 3%nat
           (ColorController "color" 8421504 (setHex 3%nat)) H1 H2).
Defined.

Lemma panel_layout_witness :
  nth_error (onLoad_materials noRotation house) 1 = Some 1%nat /\
  nth_error (gui houseLoaded) (List.length (gui houseMain) + 1) =
    Some (matFolder (onLoad_store noRotation house) 1%nat) /\
  nth_error (gui houseLoaded)
    (List.length (gui houseMain)
     + List.length (onLoad_materials noRotation house)) =
    Some (modelFolder PI_approx) /\
  List.length (gui houseLoaded) =
    (List.length (gui houseMain)
     + List.length (onLoad_materials noRotation house) + 1)%nat.
Proof.
  assert (H : nth_error (onLoad_materials noRotation house) 1 = Some 1%nat)
    by (vm_compute; reflexivity).
  split; [exact H|].
  apply (panel_layout PI_approx noRotation restingControls house houseMain
           1 1%nat H).
Defined.

Lemma material_controls_compose_witness :
  loaded houseLoaded = Some houseAsset /\
  let forth :=
    invokeBoolean (setWireframe 0%nat) true
      (invokeNumber (setRoughness 0%nat) (3 # 4)
         (invokeNumber (setMetalness 0%nat) (1 # 4)
            (invokeColor (setHex 0%nat) 255 houseLoaded))) in
  let back :=
    invokeColor (setHex 0%nat) 255
      (invokeNumber (setMetalness 0%nat) (1 # 4)
         (invokeNumber (setRoughness 0%nat) (3 # 4)
            (invokeBoolean (setWireframe 0%nat) true houseLoaded))) in
  exists ld1 ld2,
    loaded forth = Some ld1 /\ loaded back = Some ld2 /\
    object ld1 = object houseAsset /\ object ld2 = object houseAsset /\
    forall l',
      store ld1 l' = store ld2 l' /\
      store ld1 l' =
        if Nat.eqb l' 0%nat
        then mkMaterial (Some (Color_setHex 255)) (Some (1 # 4))
               (Some (3 # 4)) (Some true)
        else store houseAsset l'.
Proof.
  assert (H : loaded houseLoaded = Some houseAsset)
    by (vm_compute; reflexivity).
  split; [exact H|].
  apply (material_controls_compose houseLoaded houseAsset 0%nat 255
           (1 # 4) (3 # 4) true H).
Defined.

Lemma vertexless_asset_witness :
  vertexless (gltf_scene frame) = true /\
  onLoad_box noRotation frame = EmptyBox /\
  onLoad_center noRotation frame = v0 /\
  veq (position (data_of (onLoad_object noRotation frame)))
    (position (data_of (gltf_scene frame))) /\
  vz (camera_position (onLoad_camera noRotation frame houseMain)) == 0.
Proof.
  split; [reflexivity|].
  apply (vertexless_asset noRotation frame houseMain). reflexivity.
Defined.

Lemma colour_input_recolours_witness :
  nth_error (onLoad_materials noRotation house) 2 = Some 3%nat /\
  let s1 := houseLoaded in
  let s2 :=
    step PI_approx noRotation restingControls s1
      (ColorInput (List.length (gui houseMain) + 2) 0 65280) in
  exists ld,
    loaded s2 = Some ld /\
    object ld = onLoad_object noRotation house /\
    forall l',
      store ld l' =
      if Nat.eqb l' 3%nat
      then set_color (onLoad_store noRotation house 3%nat)
             (Some (Color_setHex 65280))
      else onLoad_store noRotation house l'.
Proof.
  assert (H : nth_error (onLoad_materials noRotation house) 2 = Some 3%nat)
    by (vm_compute; reflexivity).
  split; [exact H|].
  apply (colour_input_recolours PI_approx noRotation restingControls house
           houseMain 2 3%nat 65280 H).
Defined.
